(** * gopy: the handle registry and the value marshaller [Convert]

    A shallow embedding of package [convertor] (the cgo marshaller
    [Convert] and [handleFromPtrGenericStruct]), of the registry wrappers
    that [bind/gen.go] emits ([DecRef], [IncRef], [NumHandles]) and of the
    example values of [_examples/ifxmap/maps.go].

    Go values are modelled with their dynamic type, as [reflect] sees
    them; the Go heap is a finite map from locations to objects, so that
    aliasing between a caller's variable and a boxed value can be stated;
    the result of [Convert] is the Python object the C helper builds. *)

From Stdlib Require Import ZArith Ascii String List PrimFloat.
From Equations Require Import Equations.
From stdpp Require Import gmap strings list fin_maps.

Set Warnings "-register-all,-inexact-float".

Local Open Scope string_scope.
Local Open Scope Z_scope.

(** ** Runtime types *)

(** [reflect.Kind], in the order of the constants of package [reflect]. *)
Inductive Kind :=
  | Invalid | Bool
  | Int | Int8 | Int16 | Int32 | Int64
  | Uint | Uint8 | Uint16 | Uint32 | Uint64 | Uintptr
  | Float32 | Float64 | Complex64 | Complex128
  | Array | Chan | Func | Interface | Map | Ptr | Slice
  | String_ | Struct | UnsafePointer.

(** [reflect.Kind.String]. *)
Definition Kind_String (k : Kind) : string :=
  match k with
  | Invalid => "invalid" | Bool => "bool"
  | Int => "int" | Int8 => "int8" | Int16 => "int16"
  | Int32 => "int32" | Int64 => "int64"
  | Uint => "uint" | Uint8 => "uint8" | Uint16 => "uint16"
  | Uint32 => "uint32" | Uint64 => "uint64" | Uintptr => "uintptr"
  | Float32 => "float32" | Float64 => "float64"
  | Complex64 => "complex64" | Complex128 => "complex128"
  | Array => "array" | Chan => "chan" | Func => "func"
  | Interface => "interface" | Map => "map" | Ptr => "ptr"
  | Slice => "slice" | String_ => "string" | Struct => "struct"
  | UnsafePointer => "unsafe.Pointer"
  end.

(** The predeclared basic types. *)
Inductive Basic :=
  | BBool
  | BInt | BInt8 | BInt16 | BInt32 | BInt64
  | BUint | BUint8 | BUint16 | BUint32 | BUint64 | BUintptr
  | BFloat32 | BFloat64 | BComplex64 | BComplex128
  | BString | BUnsafePointer.

(** Go types: the predeclared ones, defined (named) types with their
    underlying type, and the type literals. [TInterface] is the empty
    interface [interface {}]. *)
Inductive GoType :=
  | TBasic (b : Basic)
  | TNamed (pkg name : string) (underlying : GoType)
  | TPtr (elem : GoType)
  | TMap (key elem : GoType)
  | TSlice (elem : GoType)
  | TChan (elem : GoType)
  | TFunc (params results : list GoType)
  | TStruct (fields : list (string * GoType))
  | TInterface.

Definition Basic_Kind (b : Basic) : Kind :=
  match b with
  | BBool => Bool
  | BInt => Int | BInt8 => Int8 | BInt16 => Int16
  | BInt32 => Int32 | BInt64 => Int64
  | BUint => Uint | BUint8 => Uint8 | BUint16 => Uint16
  | BUint32 => Uint32 | BUint64 => Uint64 | BUintptr => Uintptr
  | BFloat32 => Float32 | BFloat64 => Float64
  | BComplex64 => Complex64 | BComplex128 => Complex128
  | BString => String_ | BUnsafePointer => UnsafePointer
  end.

(** [reflect.Type.Kind]: a defined type has the kind of its underlying
    type. *)
Fixpoint Type_Kind (t : GoType) : Kind :=
  match t with
  | TBasic b => Basic_Kind b
  | TNamed _ _ u => Type_Kind u
  | TPtr _ => Ptr
  | TMap _ _ => Map
  | TSlice _ => Slice
  | TChan _ => Chan
  | TFunc _ _ => Func
  | TStruct _ => Struct
  | TInterface => Interface
  end.

Definition Basic_String (b : Basic) : string :=
  Kind_String (Basic_Kind b).

Definition join (sep : string) (l : list string) : string :=
  String.concat sep l.

(** [reflect.Type.String], which is what [fmt]'s verb [%T] prints: a
    defined type prints as [pkg.Name], a literal prints structurally. *)
Fixpoint Type_String (t : GoType) : string :=
  match t with
  | TBasic b => Basic_String b
  | TNamed pkg name _ => pkg +:+ "." +:+ name
  | TPtr e => "*" +:+ Type_String e
  | TMap k e => "map[" +:+ Type_String k +:+ "]" +:+ Type_String e
  | TSlice e => "[]" +:+ Type_String e
  | TChan e => "chan " +:+ Type_String e
  | TFunc ps rs =>
      "func(" +:+ join ", " (List.map Type_String ps) +:+ ")" +:+
      match rs with
      | [] => ""
      | [r] => " " +:+ Type_String r
      | _ => " (" +:+ join ", " (List.map Type_String rs) +:+ ")"
      end
  | TStruct fs =>
      match fs with
      | [] => "struct {}"
      | _ =>
          "struct { " +:+
          join "; " (List.map (fun f => fst f +:+ " " +:+ Type_String (snd f)) fs)
          +:+ " }"
      end
  | TInterface => "interface {}"
  end.

(** ** Values, interfaces and the heap *)

Definition loc := positive.

(** Go values. An integer of any width is its mathematical value; a map,
    a pointer, a channel, a function and a slice are references into the
    heap; [VIface] is the content of a slot of static interface type;
    [VReflectValue] is a [reflect.Value] struct, which describes the
    dynamic type and value it was made from. *)
Inductive GoVal :=
  | VBool (b : bool)
  | VInt (z : Z)
  | VFloat (f : float)
  | VString (s : string)
  | VStruct (fields : list (string * GoVal))
  | VPtr (a : loc)
  | VMapRef (a : loc)
  | VRef (a : loc)
  | VNil
  | VIface (dyn : option (GoType * GoVal))
  | VReflectValue (dyn : option (GoType * GoVal)).

(** A value of type [interface{}]: nil, or a dynamic type with a value of
    that type. *)
Abbreviation iface := (option (GoType * GoVal)).

(** Heap objects: a variable (or the target of a pointer), and the
    storage of a [map[string]interface{}]. *)
Inductive object :=
  | OVar (v : GoVal)
  | OMap (m : gmap string iface).

(** ** The handle registry (package [gopyh])

    [bind/gen.go] emits [DecRef], [IncRef] and [NumHandles] as one-line
    wrappers around package [gopyh], and [handleFromPtrGenericStruct]
    calls [gopyh.Register]. *)

Module gopyh.

(** Modelled from the spec: the entry of the registry, package [gopyh]
    not being among the sources. An entry is
    [{handle, boxedValue, typeName, refcount}]; the handle is the key
    under which the entry is stored. *)
Record Entry := mkEntry {
  boxedValue : iface;
  typeName : string;
  refcount : Z
}.

(** Modelled from the spec: the registry of package [gopyh], a table
    from handles to entries with the monotonic counter that allocates
    handles. Handles are 64-bit; the spec puts wrap-around of the
    counter out of scope, and the counter is an unbounded integer
    here. *)
Record Registry := mkRegistry {
  ctr : Z;
  entries : gmap Z Entry
}.

(** Modelled from the spec: the registry of a process that has
    registered nothing yet. *)
Definition empty : Registry := mkRegistry 0 ∅.

(** Modelled from the spec: [gopyh.Register], which "allocates a fresh
    handle (monotonic counter), stores the value with refcount 1,
    returns the handle". *)
Definition Register (typnm : string) (ifc : iface) (r : Registry)
  : Z * Registry :=
  let h := ctr r + 1 in
  (h, mkRegistry h (<[h := mkEntry ifc typnm 1]> (entries r))).

(** Modelled from the spec: [gopyh.IncRef], which "increments the
    refcount of a live entry. If the handle is unknown or already freed,
    this is a no-op with a diagnostic". *)
Definition IncRef (handle : Z) (r : Registry) : Registry :=
  match entries r !! handle with
  | Some e =>
      if decide (0 < refcount e)
      then
        mkRegistry (ctr r)
          (<[handle := mkEntry (boxedValue e) (typeName e) (refcount e + 1)]>
             (entries r))
      else r
  | None => r
  end.

(** Modelled from the spec: [gopyh.DecRef], which "decrements refcount;
    if it reaches zero, removes the entry and releases the boxed hold.
    Decrementing an already-zero or unknown handle is a no-op with a
    diagnostic". *)
Definition DecRef (handle : Z) (r : Registry) : Registry :=
  match entries r !! handle with
  | Some e =>
      if decide (refcount e ≤ 0) then r
      else if decide (refcount e - 1 = 0)
      then mkRegistry (ctr r) (delete handle (entries r))
      else
        mkRegistry (ctr r)
          (<[handle := mkEntry (boxedValue e) (typeName e) (refcount e - 1)]>
             (entries r))
  | None => r
  end.

(** Modelled from the spec: the failure [HandleNotFound] of a lookup. *)
Inductive LookupError := HandleNotFound.

(** Modelled from the spec: the lookup of package [gopyh], which "fails
    with HandleNotFound if the handle is unknown or its entry has been
    freed"; an entry whose refcount is not positive is not visible. *)
Definition Lookup (handle : Z) (r : Registry) : LookupError + iface :=
  match entries r !! handle with
  | Some e =>
      if decide (0 < refcount e) then inr (boxedValue e)
      else inl HandleNotFound
  | None => inl HandleNotFound
  end.

(** Modelled from the spec: [gopyh.NumHandles], the "number of
    currently live entries". *)
Definition NumHandles (r : Registry) : Z :=
  Z.of_nat (size (filter (λ kv, 0 < refcount kv.2) (entries r))).

(** The invariant of the registry: every stored handle was issued by
    the counter, and every stored entry is live. *)
Definition wf (r : Registry) : Prop :=
  ∀ h e, entries r !! h = Some e → h ≤ ctr r ∧ 0 < refcount e.

End gopyh.

(** The state of the process: the Go heap and the registry. *)
Record World := mkWorld {
  heap : gmap loc object;
  handles : gopyh.Registry
}.

Definition empty_world : World := mkWorld ∅ gopyh.empty.

(** [src/bind/gen.go], lines 120-137: the exported wrappers. *)
Definition DecRef (handle : Z) (w : World) : World :=
  mkWorld (heap w) (gopyh.DecRef handle (handles w)).

Definition IncRef (handle : Z) (w : World) : World :=
  mkWorld (heap w) (gopyh.IncRef handle (handles w)).

Definition NumHandles (w : World) : Z :=
  gopyh.NumHandles (handles w).

Definition Lookup (handle : Z) (w : World) : gopyh.LookupError + iface :=
  gopyh.Lookup handle (handles w).

(** Heap accesses: reading and assigning a variable, and taking the
    address of a local variable that escapes, which allocates a cell no
    existing reference points to. *)
Definition load (a : loc) (w : World) : option GoVal :=
  match heap w !! a with
  | Some (OVar v) => Some v
  | _ => None
  end.

Definition store (a : loc) (v : GoVal) (w : World) : World :=
  mkWorld (<[a := OVar v]> (heap w)) (handles w).

Definition address_of (v : GoVal) (w : World) : loc * World :=
  let p := fresh (dom (heap w)) in
  (p, mkWorld (<[p := OVar v]> (heap w)) (handles w)).

(** ** The Python side: objects and the C helpers of the cgo preamble *)

(** Python objects, as far as [Convert] builds them: the two boolean
    singletons, integers, floats, text, the result of calling an attribute
    of a module with positional and keyword arguments, and the NULL that
    [Py_BuildValue] returns for a format it cannot build. *)
Inductive PyObject :=
  | Py_True
  | Py_False
  | PyLong (z : Z)
  | PyFloat (f : float)
  | PyUnicode (s : string)
  | PyCall (module attr : string) (args : list PyObject)
      (kwargs : list (PyObject * PyObject))
  | PyNULL.

(** The argument that a C helper hands to [Py_BuildValue]. *)
Inductive CArg :=
  | CInt (z : Z)
  | CDouble (f : float)
  | CStr (s : string).

(** The conversions [C.longlong(x)] and [C.ulonglong(x)]: two's
    complement, 64 bits. *)
Definition C_longlong (z : Z) : Z := (z + 2 ^ 63) mod 2 ^ 64 - 2 ^ 63.
Definition C_ulonglong (z : Z) : Z := z mod 2 ^ 64.

(** The C string that starts at a byte sequence ends before its first
    zero byte. *)
Fixpoint c_str (s : string) : string :=
  match s with
  | EmptyString => EmptyString
  | String c s' =>
      if Ascii.eqb c Ascii.zero then EmptyString else String c (c_str s')
  end.

(** [C.CString(x)] copies the bytes of [x] and appends a zero byte (left
    implicit here); who reads the copy as a C string reads [c_str] of
    it. *)
Definition C_CString (x : string) : string := x.

(** [Py_BuildValue] at the formats the preamble uses. [k] and [K] read
    the argument as [unsigned long] and [unsigned long long], [L] as
    [long long], [d] as [double], [s] as a zero-terminated string. [long]
    has 64 bits on the platform of the cgo flags (macOS, LP64). *)
Definition Py_BuildValue (format : string) (arg0 : CArg) : PyObject :=
  match format, arg0 with
  | "k", CInt z => PyLong (z mod 2 ^ 64)
  | "K", CInt z => PyLong (z mod 2 ^ 64)
  | "L", CInt z => PyLong (C_longlong z)
  | "d", CDouble f => PyFloat f
  | "s", CStr s => PyUnicode (c_str s)
  | _, _ => PyNULL
  end.

Definition gopy_build_int64 (val : Z) : PyObject :=
  Py_BuildValue "k" (CInt val).

Definition gopy_build_uint64 (val : Z) : PyObject :=
  Py_BuildValue "K" (CInt val).

Definition gopy_build_float64 (val : float) : PyObject :=
  Py_BuildValue "d" (CDouble val).

Definition gopy_build_string (val : string) : PyObject :=
  Py_BuildValue "s" (CStr val).

(** [Py_BuildGenericStruct]: the class [objType] of module [out.ifxmap],
    called with the handle as its one positional argument. *)
Definition Py_BuildGenericStruct (objType : string) (handle : Z) : PyObject :=
  let handlePO := Py_BuildValue "L" (CInt handle) in
  PyCall "out.ifxmap" (c_str objType) [handlePO] [].

(** [Build_Map_string_interface]: the class [Map_string_interface_] of
    module [out.ifxmap], called with the keyword argument [handle]. *)
Definition Build_Map_string_interface (handle : Z) : PyObject :=
  let handlePO := Py_BuildValue "L" (CInt handle) in
  PyCall "out.ifxmap" "Map_string_interface_" []
    [(gopy_build_string "handle", handlePO)].

(** ** Package [reflect], [fmt] and [strings], as far as [Convert] uses
    them *)

(** [reflect.ValueOf(arg)] describes the dynamic type and value stored in
    the interface; for a nil interface it is the zero [Value]. *)
Definition Value : Type := iface.

Definition reflect_ValueOf (i : iface) : Value := i.

(** [Value.Kind]: the kind of the dynamic type, [Invalid] for the zero
    [Value]. *)
Definition Value_Kind (v : Value) : Kind :=
  match v with
  | Some (t, _) => Type_Kind t
  | None => Invalid
  end.

(** [Value.String]: the string itself for a value of kind [String], and
    ["<T Value>"] for a value of any other type [T]. *)
Definition Value_String (v : Value) : string :=
  match v with
  | None => "<invalid Value>"
  | Some (t, x) =>
      match Type_Kind t, x with
      | String_, VString s => s
      | _, _ => "<" +:+ Type_String t +:+ " Value>"
      end
  end.

(** The type [reflect.Value] itself: a defined struct type of package
    [reflect] (its fields as of Go 1.21; [Convert] depends on its name and
    kind only). *)
Definition reflect_Value_type : GoType :=
  TNamed "reflect" "Value"
    (TStruct [("typ_", TPtr (TNamed "abi" "Type" (TStruct [])));
              ("ptr", TBasic BUnsafePointer);
              ("flag", TNamed "reflect" "flag" (TBasic BUintptr))]).

(** A [reflect.Value] passed where an [interface{}] is expected. *)
Definition iface_of_Value (v : Value) : iface :=
  Some (reflect_Value_type, VReflectValue v).

(** [fmt.Sprintf("%T", arg)]. *)
Definition fmt_Sprintf_T (arg : iface) : string :=
  match arg with
  | Some (t, _) => Type_String t
  | None => "<nil>"
  end.

(** [strings.Split(s, sep)] for a separator of one byte: the pieces of
    [s] between the occurrences of [sep]; always at least one piece. *)
Fixpoint strings_Split (s : string) (sep : ascii) : list string :=
  match s with
  | EmptyString => [EmptyString]
  | String c s' =>
      if Ascii.eqb c sep then EmptyString :: strings_Split s' sep
      else
        match strings_Split s' sep with
        | piece :: rest => String c piece :: rest
        | [] => [String c EmptyString]
        end
  end.

(** ** Package [convertor] *)

(** What a call does: it returns a Python object, or it panics. *)
Inductive Outcome :=
  | Returns (o : PyObject)
  | Panics (msg : string).

(** The type assertions [arg.(int)], [arg.(uint64)], [arg.(bool)],
    [arg.(float64)], [arg.(string)] and [arg.(map[string]interface{})]
    succeed when the dynamic type is that very type, and give the value
    held. *)
Definition assert_int (arg : iface) : option Z :=
  match arg with Some (TBasic BInt, VInt x) => Some x | _ => None end.

Definition assert_uint64 (arg : iface) : option Z :=
  match arg with Some (TBasic BUint64, VInt x) => Some x | _ => None end.

Definition assert_bool (arg : iface) : option bool :=
  match arg with Some (TBasic BBool, VBool x) => Some x | _ => None end.

Definition assert_float64 (arg : iface) : option float :=
  match arg with Some (TBasic BFloat64, VFloat x) => Some x | _ => None end.

Definition assert_string (arg : iface) : option string :=
  match arg with Some (TBasic BString, VString x) => Some x | _ => None end.

Definition assert_map_string_interface (arg : iface) : option GoVal :=
  match arg with
  | Some (TMap (TBasic BString) TInterface, x) => Some x
  | _ => None
  end.

(** The run-time panic of a failed single-value type assertion. *)
Definition interface_conversion (arg : iface) (want : string) : string :=
  "interface conversion: interface {} is " +:+
  match arg with Some (t, _) => Type_String t | None => "nil" end +:+
  ", not " +:+ want.

(** [handleFromPtrGenericStruct], lines 91-93. *)
Definition handleFromPtrGenericStruct (p : iface) (structType : string)
    (w : World) : Z * World :=
  let '(h, r) := gopyh.Register structType p (handles w) in
  (h, mkWorld (heap w) r).

(** [pyObjectTypes[len(pyObjectTypes)-1]], an index expression that
    panics out of range. *)
Definition last_piece (pyObjectTypes : list string) : option string :=
  pyObjectTypes !! (length pyObjectTypes - 1)%nat.

(** The tail of the struct and pointer cases, lines 120-121 and
    134-135. *)
Definition build_generic (objType : string) (y : Z) : Outcome :=
  let pyObjectTypes := strings_Split objType "." in
  match last_piece pyObjectTypes with
  | Some name => Returns (Py_BuildGenericStruct (C_CString name) y)
  | None => Panics "runtime error: index out of range"
  end.

(** The recursive call of [Convert] is made on a [reflect.Value], whose
    kind is [Struct]: the depth of the recursion is the measure below. *)
Definition nesting (arg : iface) : nat :=
  match Value_Kind (reflect_ValueOf arg) with
  | Interface => 1
  | _ => 0
  end.

Definition inspect {A : Type} (a : A) : {b : A | a = b} := exist _ a eq_refl.

(** [Convert], lines 95-140. *)
Equations? Convert (arg : iface) (w : World) : Outcome * World
  by wf (nesting arg) lt :=
Convert arg w with inspect (Value_Kind (reflect_ValueOf arg)) := {
  | exist _ Int _ =>
      match assert_int arg with
      | Some x => (Returns (gopy_build_int64 (C_longlong x)), w)
      | None => (Panics (interface_conversion arg "int"), w)
      end
  | exist _ Uint64 _ =>
      match assert_uint64 arg with
      | Some x => (Returns (gopy_build_uint64 (C_ulonglong x)), w)
      | None => (Panics (interface_conversion arg "uint64"), w)
      end
  | exist _ Bool _ =>
      match assert_bool arg with
      | Some x => if x then (Returns Py_True, w) else (Returns Py_False, w)
      | None => (Panics (interface_conversion arg "bool"), w)
      end
  | exist _ Float64 _ =>
      match assert_float64 arg with
      | Some x => (Returns (gopy_build_float64 x), w)
      | None => (Panics (interface_conversion arg "float64"), w)
      end
  | exist _ String_ _ =>
      match assert_string arg with
      | Some x => (Returns (gopy_build_string (C_CString x)), w)
      | None => (Panics (interface_conversion arg "string"), w)
      end
  | exist _ Interface _ =>
      Convert (iface_of_Value (reflect_ValueOf arg)) w
  | exist _ Struct _ =>
      let objType := fmt_Sprintf_T arg in
      let '(p, w1) := address_of (VIface arg) w in
      let '(y, w2) :=
        handleFromPtrGenericStruct (Some (TPtr TInterface, VPtr p)) objType w1 in
      (build_generic objType y, w2)
  | exist _ Map _ =>
      let objType := fmt_Sprintf_T arg in
      match assert_map_string_interface arg with
      | None =>
          let e := "Invalid type: " +:+
                   Kind_String (Value_Kind (reflect_ValueOf arg)) +:+
                   " value:" +:+ Value_String (reflect_ValueOf arg) in
          (Returns (gopy_build_string (C_CString e)), w)
      | Some x =>
          let '(p, w1) := address_of x w in
          let '(y, w2) :=
            handleFromPtrGenericStruct
              (Some (TPtr (TMap (TBasic BString) TInterface), VPtr p))
              objType w1 in
          (Returns (Build_Map_string_interface y), w2)
      end
  | exist _ Ptr _ =>
      let objType := fmt_Sprintf_T arg in
      let '(y, w1) := handleFromPtrGenericStruct arg objType w in
      (build_generic objType y, w1)
  | exist _ _ _ =>
      let e := Kind_String (Value_Kind (reflect_ValueOf arg)) +:+
               Value_String (reflect_ValueOf arg) in
      let x := C_CString e in
      (Returns (gopy_build_string x), w) }.
Proof.
  unfold nesting. rewrite e. simpl. lia.
Qed.

(** ** Reads through a handle

    The generated accessors of a shadow object are not among the
    sources; they are modelled as the spec describes them. *)

(** Modelled from the spec: the accessor of a [Map_string_interface_]
    proxy, which "performs Lookup" and reads "through the handle back to
    the live boxed value": the boxed value is the pointer [&x] that
    [Convert] registered, its target holds the map, and the map is read
    in the heap. *)
Definition boxed_map (handle : Z) (w : World) : option (gmap string iface) :=
  match Lookup handle w with
  | inr (Some (TPtr (TMap (TBasic BString) TInterface), VPtr p)) =>
      match load p w with
      | Some (VMapRef m) =>
          match heap w !! m with
          | Some (OMap entries) => Some entries
          | _ => None
          end
      | _ => None
      end
  | _ => None
  end.

(** Modelled from the spec: a proxy read of one key. *)
Definition Map_string_interface_elem (handle : Z) (key : string) (w : World)
  : option iface :=
  m ← boxed_map handle w; m !! key.

(** Modelled from the spec: the location a handle gives access to, when
    the boxed value is a pointer; reads and writes of a proxy go to that
    location. *)
Definition handle_target (handle : Z) (w : World) : option loc :=
  match Lookup handle w with
  | inr (Some (TPtr _, VPtr p)) => Some p
  | _ => None
  end.

(** ** The example values of [_examples/ifxmap/maps.go] *)

Module ifxmap.

Definition TestStruct : GoType :=
  TNamed "ifxmap" "TestStruct" (TStruct [("Value", TBasic BInt)]).

Definition map_string_interface : GoType :=
  TMap (TBasic BString) TInterface.

(** The inner map of [New], lines 26-30. *)
Definition inner_map : gmap string iface :=
  <["string" := Some (TBasic BString, VString "abcd")]>
  (<["int" := Some (TBasic BInt, VInt 1)]>
  (<["float" := Some (TBasic BFloat64, VFloat 2.69)]> ∅)).

End ifxmap.

(** [bind.BuildMode] of [bind/gen.go], line 27: a defined type whose
    underlying type is [string]; [ModeGen] is its value ["gen"]. *)
Definition BuildMode : GoType := TNamed "bind" "BuildMode" (TBasic BString).
Definition ModeGen : iface := Some (BuildMode, VString "gen").

(** Passing [x] of static type [S] to a parameter of type [interface{}]:
    an interface value keeps the dynamic type and value it holds (a nil
    interface stays nil); a value of a concrete type is stored with [S] as
    its dynamic type. *)
Definition pass_as_interface (S : GoType) (x : GoVal) : iface :=
  match Type_Kind S with
  | Interface => match x with VIface dyn => dyn | _ => None end
  | _ => Some (S, x)
  end.

(** The kinds that have a case in the switch of [Convert]. *)
Definition has_case (k : Kind) : bool :=
  match k with
  | Int | Uint64 | Bool | Float64 | String_
  | Interface | Struct | Map | Ptr => true
  | _ => false
  end.

(** The values that take the boxed-indirection path: structs, pointers,
    and maps of type [map[string]interface{}]. *)
Definition boxed_path (arg : iface) : bool :=
  match Value_Kind (reflect_ValueOf arg) with
  | Struct | Ptr => true
  | Map => bool_decide (is_Some (assert_map_string_interface arg))
  | _ => false
  end.

(** A value whose dynamic type is not an interface type never reaches
    the [Interface] case; Go stores no interface type as a dynamic
    type. *)
Definition concrete (arg : iface) : Prop :=
  Value_Kind (reflect_ValueOf arg) ≠ Interface.

(** The signed integer types and the range of their values. *)
Definition signed_integer_type (b : Basic) : bool :=
  match b with
  | BInt | BInt8 | BInt16 | BInt32 | BInt64 => true
  | _ => false
  end.

Definition Basic_bits (b : Basic) : Z :=
  match b with
  | BInt8 | BUint8 => 8
  | BInt16 | BUint16 => 16
  | BInt32 | BUint32 | BFloat32 => 32
  | BComplex128 => 128
  | _ => 64
  end.

Definition int_range (b : Basic) (x : Z) : Prop :=
  - 2 ^ (Basic_bits b - 1) ≤ x < 2 ^ (Basic_bits b - 1).

(** ** More of [bind/gen.go] and of [maps.go] *)

(** What a Go function does when it returns no Python object: it gives a
    value, or it panics. *)
Inductive GoResult (A : Type) :=
  | Done (a : A)
  | Panicked (msg : string).
Arguments Done {A} a.
Arguments Panicked {A} msg.

(** [boolGoToPy] and [boolPyToGo], lines 139-153 of the preamble that
    [gen.go] emits; a [C.char] is an integer of 8 bits. *)
Definition boolGoToPy (b : bool) : Z :=
  if b then 1 else 0.

Definition boolPyToGo (b : Z) : bool :=
  if decide (b ≠ 0) then true else false.

(** Strings are byte strings: [len(s)], [s[:n]] and [s[n:]] count
    bytes. *)
Fixpoint string_take (n : nat) (s : string) : string :=
  match n, s with
  | S n', String c s' => String c (string_take n' s')
  | _, _ => EmptyString
  end.

Fixpoint string_drop (n : nat) (s : string) : string :=
  match n, s with
  | S n', String _ s' => string_drop n' s'
  | _, _ => s
  end.

(** The slice expression [s[lo:hi]], which panics unless
    [0 <= lo <= hi <= len(s)]. *)
Definition string_slice (s : string) (lo hi : Z) : option string :=
  if decide (0 ≤ lo ∧ lo ≤ hi ∧ hi ≤ Z.of_nat (String.length s))
  then Some (string_take (Z.to_nat (hi - lo)) (string_drop (Z.to_nat lo) s))
  else None.

Fixpoint has_prefix (s prefix : string) : bool :=
  match prefix, s with
  | EmptyString, _ => true
  | String a p', String b s' => if Ascii.eqb a b then has_prefix s' p' else false
  | String _ _, EmptyString => false
  end.

(** The position of the first occurrence of [substr] in [s], if there is
    one. *)
Fixpoint index_of (s substr : string) : option nat :=
  if has_prefix s substr then Some 0%nat
  else
    match s with
    | EmptyString => None
    | String _ s' => S <$> index_of s' substr
    end.

(** [strings.Index(s, substr)]: the index of the first instance of
    [substr] in [s], or -1. *)
Definition strings_Index (s substr : string) : Z :=
  match index_of s substr with
  | Some n => Z.of_nat n
  | None => -1
  end.

(** The table [asciiSpace] of package [strings]: tab, newline, vertical
    tab, form feed, carriage return and space. *)
Definition asciiSpace (c : ascii) : bool :=
  match nat_of_ascii c with
  | 9%nat | 10%nat | 11%nat | 12%nat | 13%nat | 32%nat => true
  | _ => false
  end.

(** The strings of ASCII bytes, on which [strings.Fields] takes its ASCII
    path. *)
Fixpoint ascii_only (s : string) : Prop :=
  match s with
  | EmptyString => True
  | String c s' => (nat_of_ascii c < 128)%nat ∧ ascii_only s'
  end.

Definition cons_field (cur : string) (rest : list string) : list string :=
  match cur with
  | EmptyString => rest
  | _ => cur :: rest
  end.

(** The field that starts at the head of [s] (empty when [s] starts with
    a space), and the fields after it. *)
Fixpoint fields_from (s : string) : string * list string :=
  match s with
  | EmptyString => (EmptyString, [])
  | String c s' =>
      let '(cur, rest) := fields_from s' in
      if asciiSpace c then (EmptyString, cons_field cur rest)
      else (String c cur, rest)
  end.

(** [strings.Fields(s)] on a string of ASCII bytes: the maximal runs of
    bytes that are not in [asciiSpace]. The slice it returns has as much
    capacity as length. (On a string with a byte above 127 Go also splits
    at the Unicode spaces; the properties below are stated for ASCII
    strings.) *)
Definition strings_Fields (s : string) : list string :=
  let '(cur, rest) := fields_from s in cons_field cur rest.

(** [strings.Join(elems, sep)]. *)
Definition strings_Join (elems : list string) (sep : string) : string :=
  join sep elems.

(** Lines 684-687 of [CmdStrToMakefile]: the cut of the [-output=]
    option. *)
Definition CmdStrToMakefile_cut (cmdstr : string) : option string :=
  let oidx := strings_Index cmdstr "-output=" in
  if decide (oidx > 0) then
    tail ← string_slice cmdstr oidx (Z.of_nat (String.length cmdstr));
    let spidx := strings_Index tail " " in
    before ← string_slice cmdstr 0 oidx;
    after ← string_slice cmdstr (oidx + spidx + 1)
              (Z.of_nat (String.length cmdstr));
    Some (before +:+ after)
  else Some cmdstr.

(** Lines 688-694 of [CmdStrToMakefile]: the flag [-no-make] is put
    behind the first two fields. [cmds[:2]] panics when the capacity of
    [cmds] is below 2. *)
Definition CmdStrToMakefile_join (cmdstr : string) : GoResult string :=
  let cmds := strings_Fields cmdstr in
  if decide (length cmds < 2)%nat
  then Panicked "runtime error: slice bounds out of range [:2]"
  else
    let ncmds : list string := [] in
    let ncmds := (ncmds ++ take 2 cmds)%list in
    let ncmds := (ncmds ++ ["-no-make"])%list in
    let ncmds := (ncmds ++ drop 2 cmds)%list in
    Done (strings_Join ncmds " ").

(** [CmdStrToMakefile], lines 683-695. *)
Definition CmdStrToMakefile (cmdstr : string) : GoResult string :=
  match CmdStrToMakefile_cut cmdstr with
  | None => Panicked "runtime error: slice bounds out of range"
  | Some cmdstr => CmdStrToMakefile_join cmdstr
  end.

(** A field, as [strings.Fields] gives it: not empty, and without a byte
    of [asciiSpace]. *)
Fixpoint no_space (s : string) : Prop :=
  match s with
  | EmptyString => True
  | String c s' => asciiSpace c = false ∧ no_space s'
  end.

Definition is_field (s : string) : Prop :=
  s ≠ EmptyString ∧ no_space s.

(** The strings without the byte [c]. *)
Fixpoint without_byte (c : ascii) (s : string) : Prop :=
  match s with
  | EmptyString => True
  | String c' s' => c' ≠ c ∧ without_byte c s'
  end.

(** The values whose type assertion in the primitive cases of [Convert]
    holds: the kind is not one of the five, or the dynamic type is the
    predeclared type itself. *)
Definition assertion_holds (arg : iface) : bool :=
  match Value_Kind (reflect_ValueOf arg) with
  | Int => bool_decide (is_Some (assert_int arg))
  | Uint64 => bool_decide (is_Some (assert_uint64 arg))
  | Bool => bool_decide (is_Some (assert_bool arg))
  | Float64 => bool_decide (is_Some (assert_float64 arg))
  | String_ => bool_decide (is_Some (assert_string arg))
  | _ => true
  end.

(** A value of a type of one of the five primitive kinds is an integer,
    a boolean, a float or a string, as its kind says. *)
Definition payload_matches (t : GoType) (x : GoVal) : Prop :=
  match Type_Kind t with
  | Int | Uint64 => ∃ z, x = VInt z
  | Bool => ∃ b, x = VBool b
  | Float64 => ∃ f, x = VFloat f
  | String_ => ∃ s, x = VString s
  | _ => True
  end.

(** The five kinds with a primitive case. *)
Definition primitive_case (k : Kind) : bool :=
  match k with
  | Int | Uint64 | Bool | Float64 | String_ => true
  | _ => false
  end.

(** Calls of [Convert] one after the other, on the values of a
    container; a panic ends the sequence. *)
Fixpoint Convert_each (args : list iface) (w : World)
  : GoResult (list PyObject) * World :=
  match args with
  | [] => (Done [], w)
  | arg :: rest =>
      match Convert arg w with
      | (Returns o, w1) =>
          match Convert_each rest w1 with
          | (Done os, w2) => (Done (o :: os), w2)
          | (Panicked msg, w2) => (Panicked msg, w2)
          end
      | (Panics msg, w1) => (Panicked msg, w1)
      end
  end.

(** The number of values of a list that take the boxed path. *)
Definition count_boxed (args : list iface) : Z :=
  Z.of_nat (length (filter (λ arg, boxed_path arg = true) args)).

(** [make(map[string]interface{})] and a map literal: a new map object;
    [m[key] = v] on a map. *)
Definition make_map (entries : gmap string iface) (w : World) : loc * World :=
  let m := fresh (dom (heap w)) in
  (m, mkWorld (<[m := OMap entries]> (heap w)) (handles w)).

Definition map_assign (m : loc) (key : string) (v : iface) (w : World) : World :=
  match heap w !! m with
  | Some (OMap entries) =>
      mkWorld (<[m := OMap (<[key := v]> entries)]> (heap w)) (handles w)
  | _ => w
  end.

Module maps.

(** [New] of [_examples/ifxmap/maps.go], lines 11-34. *)
Definition New (w : World) : GoVal * World :=
  let '(retval, w) := make_map ∅ w in
  let w := map_assign retval "float" (Some (TBasic BFloat64, VFloat 3.14159)) w in
  let w := map_assign retval "string" (Some (TBasic BString, VString "sample")) w in
  let w := map_assign retval "int" (Some (TBasic BInt, VInt 2)) w in
  let w := map_assign retval "uint" (Some (TBasic BUint64, VInt 3)) w in
  let w := map_assign retval "bool" (Some (TBasic BBool, VBool true)) w in
  let w := map_assign retval "struct"
             (Some (ifxmap.TestStruct, VStruct [("Value", VInt 6)])) w in
  let '(structPtr, w) := address_of (VStruct [("Value", VInt 12)]) w in
  let '(inner, w) := make_map ifxmap.inner_map w in
  let w := map_assign retval "map"
             (Some (ifxmap.map_string_interface, VMapRef inner)) w in
  let w := map_assign retval "structPtr"
             (Some (TPtr ifxmap.TestStruct, VPtr structPtr)) w in
  (VMapRef retval, w).

(** The entries of the map that [New] returns. *)
Definition New_entries (w : World) : option (gmap string iface) :=
  match New w with
  | (VMapRef m, w1) =>
      match heap w1 !! m with
      | Some (OMap entries) => Some entries
      | _ => None
      end
  | _ => None
  end.

End maps.

(** * Properties *)

(** ** Text helpers *)

Lemma c_str_app (p s : string) :
  c_str p = p → c_str (p +:+ s) = p +:+ c_str s.
Proof.
  induction p as [|c p IH]; simpl; [done|].
  destruct (Ascii.eqb c Ascii.zero); [discriminate|].
  intros [= Hp]. by rewrite IH.
Qed.

Lemma Kind_String_c_str (k : Kind) : c_str (Kind_String k) = Kind_String k.
Proof. by destruct k. Qed.

Lemma strings_Split_nonempty (s : string) (sep : ascii) :
  strings_Split s sep ≠ [].
Proof.
  destruct s as [|c s]; simpl; [done|].
  destruct (Ascii.eqb c sep); [done|].
  by destruct (strings_Split s sep).
Qed.

(** The index expression [pyObjectTypes[len(pyObjectTypes)-1]] is always
    in range on the result of [strings.Split]. *)
Lemma last_piece_Split (s : string) (sep : ascii) :
  is_Some (last_piece (strings_Split s sep)).
Proof.
  unfold last_piece. apply lookup_lt_is_Some.
  pose proof (strings_Split_nonempty s sep) as Hne.
  destruct (strings_Split s sep); [done|]. simpl. lia.
Qed.

Lemma build_generic_Returns (objType : string) (y : Z) :
  ∃ name, last_piece (strings_Split objType ".") = Some name ∧
          build_generic objType y = Returns (Py_BuildGenericStruct (C_CString name) y).
Proof.
  destruct (last_piece_Split objType ".") as [name Hname].
  exists name. split; [done|]. unfold build_generic. by rewrite Hname.
Qed.

(** ** The cases of [Convert] *)

(** Selects the case of the switch that a known kind takes. *)
Ltac Convert_case :=
  rewrite Convert_equation_1;
  match goal with
  | H : ?k = ?K |- context [inspect ?k] =>
      let x := fresh "k" in
      let Hx := fresh "Hk" in
      let Heq := fresh "Heq" in
      destruct (inspect k) as [x Hx];
      assert (x = K) as Heq by congruence;
      revert Hx; rewrite Heq; intros Hx;
      cbn [Convert_unfold_clause_1]
  end.

Lemma Convert_Struct (arg : iface) (w : World) :
  Value_Kind (reflect_ValueOf arg) = Struct →
  Convert arg w =
    let p := fresh (dom (heap w)) in
    let w1 := mkWorld (<[p := OVar (VIface arg)]> (heap w)) (handles w) in
    let r := gopyh.Register (fmt_Sprintf_T arg) (Some (TPtr TInterface, VPtr p))
               (handles w) in
    (build_generic (fmt_Sprintf_T arg) r.1, mkWorld (heap w1) r.2).
Proof. intros H. Convert_case. reflexivity. Qed.

Lemma Convert_Ptr (arg : iface) (w : World) :
  Value_Kind (reflect_ValueOf arg) = Ptr →
  Convert arg w =
    let r := gopyh.Register (fmt_Sprintf_T arg) arg (handles w) in
    (build_generic (fmt_Sprintf_T arg) r.1, mkWorld (heap w) r.2).
Proof. intros H. Convert_case. reflexivity. Qed.

Lemma Convert_Map_boxed (x : GoVal) (w : World) :
  Convert (Some (ifxmap.map_string_interface, x)) w =
    let p := fresh (dom (heap w)) in
    let r := gopyh.Register "map[string]interface {}"
               (Some (TPtr ifxmap.map_string_interface, VPtr p)) (handles w) in
    (Returns (Build_Map_string_interface r.1),
     mkWorld (<[p := OVar x]> (heap w)) r.2).
Proof. rewrite Convert_equation_1. reflexivity. Qed.

Lemma Convert_Map_invalid (arg : iface) (w : World) :
  Value_Kind (reflect_ValueOf arg) = Map →
  assert_map_string_interface arg = None →
  Convert arg w =
    (Returns (gopy_build_string (C_CString
       ("Invalid type: " +:+ "map" +:+ " value:" +:+
        Value_String (reflect_ValueOf arg)))), w).
Proof.
  intros H Hno. Convert_case. rewrite Hno. cbn zeta. by rewrite H.
Qed.

Lemma Convert_Interface (arg : iface) (w : World) :
  Value_Kind (reflect_ValueOf arg) = Interface →
  Convert arg w = Convert (iface_of_Value (reflect_ValueOf arg)) w.
Proof. intros H. Convert_case. reflexivity. Qed.

Lemma Convert_default (arg : iface) (w : World) :
  has_case (Value_Kind (reflect_ValueOf arg)) = false →
  Convert arg w =
    (Returns (gopy_build_string (C_CString
       (Kind_String (Value_Kind (reflect_ValueOf arg)) +:+
        Value_String (reflect_ValueOf arg)))), w).
Proof.
  intros Hno.
  destruct (Value_Kind (reflect_ValueOf arg)) eqn:H; try discriminate Hno;
    Convert_case; cbn zeta; by rewrite H.
Qed.

(** The recursion of the [Interface] case stops after one call: a
    [reflect.Value] is a struct. *)
Lemma Convert_Interface_boxes_Value (arg : iface) (w : World) :
  Value_Kind (reflect_ValueOf arg) = Interface →
  Convert arg w =
    let p := fresh (dom (heap w)) in
    let boxed := iface_of_Value (reflect_ValueOf arg) in
    let r := gopyh.Register "reflect.Value" (Some (TPtr TInterface, VPtr p))
               (handles w) in
    (Returns (Py_BuildGenericStruct "Value" r.1),
     mkWorld (<[p := OVar (VIface boxed)]> (heap w)) r.2).
Proof.
  intros H. rewrite Convert_Interface by done.
  rewrite Convert_Struct by done. reflexivity.
Qed.

(** [Convert] returns a Python object, unless a single-value type
    assertion of the five primitive cases fails. *)
Lemma Convert_Returns_or_assertion (arg : iface) (w : World) :
  (∃ o w', Convert arg w = (Returns o, w')) ∨
  (∃ want, Convert arg w = (Panics (interface_conversion arg want), w) ∧
     Value_Kind (reflect_ValueOf arg) ∈ [Int; Uint64; Bool; Float64; String_]).
Proof.
  destruct (Value_Kind (reflect_ValueOf arg)) eqn:H;
    try (left; rewrite Convert_default by (by rewrite H); by eauto).
  - Convert_case. destruct (assert_bool arg) as [[]|]; eauto.
    right. eexists. split; [done|]. set_solver.
  - Convert_case. destruct (assert_int arg); eauto.
    right. eexists. split; [done|]. set_solver.
  - Convert_case. destruct (assert_uint64 arg); eauto.
    right. eexists. split; [done|]. set_solver.
  - Convert_case. destruct (assert_float64 arg); eauto.
    right. eexists. split; [done|]. set_solver.
  - left. rewrite Convert_Interface_boxes_Value by done. simpl. eauto.
  - left. destruct (assert_map_string_interface arg) as [x|] eqn:Hm.
    + destruct arg as [[t v]|]; [|done].
      destruct t as [| | |[[]| | | | | | | |] [] | | | | |]; try done.
      injection Hm as ->. rewrite Convert_Map_boxed. simpl. eauto.
    + rewrite Convert_Map_invalid by done. eauto.
  - left. rewrite Convert_Ptr by done. simpl.
    destruct (build_generic_Returns (fmt_Sprintf_T arg) (gopyh.ctr (handles w) + 1))
      as (name & _ & ->). eauto.
  - Convert_case. destruct (assert_string arg); eauto.
    right. eexists. split; [done|]. set_solver.
  - left. rewrite Convert_Struct by done. simpl.
    destruct (build_generic_Returns (fmt_Sprintf_T arg) (gopyh.ctr (handles w) + 1))
      as (name & _ & ->). eauto.
Qed.

(** ** The registry *)

Lemma wf_empty : gopyh.wf gopyh.empty.
Proof. intros h e. simpl. by rewrite lookup_empty. Qed.

(** The next handle of the counter is not in use. *)
Lemma wf_fresh (r : gopyh.Registry) :
  gopyh.wf r → gopyh.entries r !! (gopyh.ctr r + 1) = None.
Proof.
  intros Hwf. destruct (gopyh.entries r !! (gopyh.ctr r + 1)) as [e|] eqn:He; [|done].
  apply Hwf in He. lia.
Qed.

Lemma NumHandles_wf (r : gopyh.Registry) :
  gopyh.wf r → gopyh.NumHandles r = Z.of_nat (size (gopyh.entries r)).
Proof.
  intros Hwf. unfold gopyh.NumHandles. rewrite map_filter_id; [done|].
  intros h e He. simpl. by apply Hwf in He as [_ ?].
Qed.

Lemma Register_wf (typnm : string) (ifc : iface) (r : gopyh.Registry) :
  gopyh.wf r → gopyh.wf (gopyh.Register typnm ifc r).2.
Proof.
  intros Hwf h e. simpl. rewrite lookup_insert. case_decide as Hh.
  - intros [= <-]. simpl. lia.
  - intros He. apply Hwf in He. lia.
Qed.

Lemma NumHandles_Register (typnm : string) (ifc : iface) (r : gopyh.Registry) :
  gopyh.wf r →
  gopyh.NumHandles (gopyh.Register typnm ifc r).2 = gopyh.NumHandles r + 1.
Proof.
  intros Hwf. rewrite !NumHandles_wf by eauto using Register_wf. simpl.
  rewrite map_size_insert_None by by apply wf_fresh. lia.
Qed.

Lemma Lookup_Register (typnm : string) (ifc : iface) (r : gopyh.Registry) :
  gopyh.Lookup (gopyh.ctr r + 1) (gopyh.Register typnm ifc r).2 = inr ifc.
Proof. unfold gopyh.Lookup. simpl. by rewrite lookup_insert_eq. Qed.

(** An older handle is not disturbed by a later [Register]. *)
Lemma Lookup_Register_other (typnm : string) (ifc : iface)
    (r : gopyh.Registry) (h : Z) :
  h ≠ gopyh.ctr r + 1 →
  gopyh.Lookup h (gopyh.Register typnm ifc r).2 = gopyh.Lookup h r.
Proof. intros Hh. unfold gopyh.Lookup. simpl. by rewrite lookup_insert_ne. Qed.

Lemma IncRef_insert (h c n : Z) (v : iface) (t : string) (m : gmap Z gopyh.Entry) :
  0 < n →
  gopyh.IncRef h (gopyh.mkRegistry c (<[h := gopyh.mkEntry v t n]> m)) =
  gopyh.mkRegistry c (<[h := gopyh.mkEntry v t (n + 1)]> m).
Proof.
  intros Hn. unfold gopyh.IncRef. simpl. rewrite lookup_insert_eq. simpl.
  rewrite decide_True by done. by rewrite insert_insert_eq.
Qed.

Lemma DecRef_insert_more (h c n : Z) (v : iface) (t : string)
    (m : gmap Z gopyh.Entry) :
  1 < n →
  gopyh.DecRef h (gopyh.mkRegistry c (<[h := gopyh.mkEntry v t n]> m)) =
  gopyh.mkRegistry c (<[h := gopyh.mkEntry v t (n - 1)]> m).
Proof.
  intros Hn. unfold gopyh.DecRef. simpl. rewrite lookup_insert_eq. simpl.
  rewrite !decide_False by lia. by rewrite insert_insert_eq.
Qed.

Lemma DecRef_insert_last (h c : Z) (v : iface) (t : string)
    (m : gmap Z gopyh.Entry) :
  m !! h = None →
  gopyh.DecRef h (gopyh.mkRegistry c (<[h := gopyh.mkEntry v t 1]> m)) =
  gopyh.mkRegistry c m.
Proof.
  intros Hm. unfold gopyh.DecRef. simpl. rewrite lookup_insert_eq. simpl.
  by rewrite delete_insert_id.
Qed.

(** The scenario of one [Register], one [IncRef] and two [DecRef]s, from
    any registry whose next handle is not in use: the table is back to
    what it was. *)
Lemma registry_scenario (typnm : string) (ifc : iface) (r : gopyh.Registry) :
  gopyh.entries r !! (gopyh.ctr r + 1) = None →
  let h1 := (gopyh.Register typnm ifc r).1 in
  let r1 := (gopyh.Register typnm ifc r).2 in
  let r2 := gopyh.IncRef h1 r1 in
  let r3 := gopyh.DecRef h1 r2 in
  let r4 := gopyh.DecRef h1 r3 in
  gopyh.entries r1 !! h1 = Some (gopyh.mkEntry ifc typnm 1) ∧
  gopyh.entries r2 !! h1 = Some (gopyh.mkEntry ifc typnm 2) ∧
  gopyh.entries r3 !! h1 = Some (gopyh.mkEntry ifc typnm 1) ∧
  gopyh.Lookup h1 r3 = inr ifc ∧
  gopyh.entries r4 = gopyh.entries r.
Proof.
  intros Hfresh. cbn zeta. unfold gopyh.Register. cbn [fst snd].
  rewrite IncRef_insert by lia. rewrite DecRef_insert_more by lia.
  rewrite DecRef_insert_last by done.
  unfold gopyh.Lookup. cbn [gopyh.entries]. rewrite !lookup_insert_eq.
  by repeat split.
Qed.

(** C1. After [Register(typeName, 42)] gives [h1] (refcount 1), [IncRef(h1)]
    (refcount 2) and a first [DecRef(h1)] (refcount 1), [Lookup(h1)] still
    succeeds with the boxed 42; after the second [DecRef(h1)] the entry is
    removed, [Lookup(h1)] fails with [HandleNotFound] and [NumHandles()]
    is 0. *)
Theorem Register_IncRef_DecRef_DecRef (typeName : string) (hp : gmap loc object) :
  let v := Some (TBasic BInt, VInt 42) in
  let h1 := (gopyh.Register typeName v gopyh.empty).1 in
  let w1 := mkWorld hp (gopyh.Register typeName v gopyh.empty).2 in
  let w2 := IncRef h1 w1 in
  let w3 := DecRef h1 w2 in
  let w4 := DecRef h1 w3 in
  gopyh.refcount <$> gopyh.entries (handles w1) !! h1 = Some 1 ∧
  gopyh.refcount <$> gopyh.entries (handles w2) !! h1 = Some 2 ∧
  gopyh.refcount <$> gopyh.entries (handles w3) !! h1 = Some 1 ∧
  Lookup h1 w3 = inr v ∧
  gopyh.entries (handles w4) !! h1 = None ∧
  Lookup h1 w4 = inl gopyh.HandleNotFound ∧
  NumHandles w4 = 0.
Proof.
  intros v h1 w1 w2 w3 w4.
  destruct (registry_scenario typeName v gopyh.empty)
    as (H1 & H2 & H3 & HL & H4); [apply lookup_empty|].
  fold h1 in H1, H2, H3, HL, H4.
  unfold Lookup, NumHandles, gopyh.NumHandles, gopyh.Lookup.
  subst w1 w2 w3 w4. simpl in *.
  rewrite H1, H2, H3, H4. simpl. rewrite lookup_empty.
  repeat split; try done.
Qed.

(** ** The primitive cases *)

Lemma C_longlong_id (x : Z) : - 2 ^ 63 ≤ x < 2 ^ 63 → C_longlong x = x.
Proof. intros Hx. unfold C_longlong. rewrite Z.mod_small; lia. Qed.

Lemma gopy_build_int64_nonneg (x : Z) :
  0 ≤ x < 2 ^ 64 → gopy_build_int64 x = PyLong x.
Proof.
  intros Hx. unfold gopy_build_int64. simpl. by rewrite Z.mod_small.
Qed.

(** A value of a defined type whose underlying type is one of the five
    primitive types fails the type assertion of its case: [Convert]
    panics. *)
Lemma Convert_panics_on_defined_primitive (pkg name : string) (u : GoType)
    (x : GoVal) (w : World) :
  Type_Kind u ∈ [Int; Uint64; Bool; Float64; String_] →
  ∃ want, Convert (Some (TNamed pkg name u, x)) w =
            (Panics (interface_conversion (Some (TNamed pkg name u, x)) want), w).
Proof.
  intros Hk.
  assert (Value_Kind (reflect_ValueOf (Some (TNamed pkg name u, x))) = Type_Kind u)
    as Hv by done.
  repeat (apply elem_of_cons in Hk as [Hk|Hk]); [..|by apply elem_of_nil in Hk];
    rewrite Hk in Hv; Convert_case; eauto.
Qed.

(** C2. The claim that [Convert] returns for every input fails on the code
    at a value the code can receive: [bind.ModeGen], of the defined type
    [bind.BuildMode], has kind [String] and fails the assertion
    [arg.(string)] of line 113, and [Convert] panics. *)
Theorem Convert_panics_on_ModeGen (w : World) :
  Convert ModeGen w =
    (Panics "interface conversion: interface {} is bind.BuildMode, not string", w).
Proof. rewrite Convert_equation_1. reflexivity. Qed.

(** Not every signed integer is given the 64-bit integer encoding. *)
Lemma signed_integers_not_all_encoded :
  ¬ (∀ (b : Basic) (x : Z) (w : World),
       signed_integer_type b = true → int_range b x →
       (Convert (Some (TBasic b, VInt x)) w).1 = Returns (gopy_build_int64 x)).
Proof.
  intros H. specialize (H BInt8 5 empty_world eq_refl).
  rewrite Convert_equation_1 in H. simpl in H.
  assert (int_range BInt8 5) as Hr by (unfold int_range; simpl; lia).
  specialize (H Hr). discriminate H.
Qed.

(** C5, as stated, fails at the [int8] 5: a signed integer in the range
    of its type, which [Convert] turns into the text "int8<int8 Value>"
    and not into the 64-bit integer encoding of 5. *)
Lemma Convert_int8_is_text :
  signed_integer_type BInt8 = true ∧
  int_range BInt8 5 ∧
  Convert (Some (TBasic BInt8, VInt 5)) empty_world =
    (Returns (PyUnicode "int8<int8 Value>"), empty_world) ∧
  (Convert (Some (TBasic BInt8, VInt 5)) empty_world).1 ≠
    Returns (gopy_build_int64 5).
Proof.
  split; [reflexivity|]. split; [unfold int_range; simpl; lia|].
  rewrite Convert_equation_1. simpl. split; [reflexivity|discriminate].
Qed.

(** C5, amended. A value of the predeclared type [int] is given the 64-bit
    integer encoding [gopy_build_int64] of that value, which is the
    Python integer of the same value when the value is not negative, and
    the registry is untouched; a value of type [int8], [int16], [int32] or
    [int64] has no case of its own and gets the text of the default
    case. *)
Theorem Convert_int (x : Z) (w : World) :
  int_range BInt x →
  Convert (Some (TBasic BInt, VInt x)) w = (Returns (gopy_build_int64 x), w) ∧
  (0 ≤ x → gopy_build_int64 x = PyLong x) ∧
  ∀ b, b ∈ [BInt8; BInt16; BInt32; BInt64] →
       Convert (Some (TBasic b, VInt x)) w =
         (Returns (PyUnicode (Basic_String b +:+ "<" +:+ Basic_String b +:+ " Value>")),
          w).
Proof.
  unfold int_range. simpl. intros Hx. split; [|split].
  - rewrite Convert_equation_1. simpl. by rewrite C_longlong_id.
  - intros H0. apply gopy_build_int64_nonneg. lia.
  - intros b Hb.
    repeat (apply elem_of_cons in Hb as [->|Hb]); [..|by apply elem_of_nil in Hb];
      by rewrite Convert_equation_1.
Qed.

Lemma Convert_int_witness :
  int_range BInt 2 ∧
  Convert (Some (TBasic BInt, VInt 2)) empty_world = (Returns (PyLong 2), empty_world) ∧
  Convert (Some (TBasic BInt16, VInt 2)) empty_world =
    (Returns (PyUnicode "int16<int16 Value>"), empty_world).
Proof.
  assert (int_range BInt 2) as Hr by (unfold int_range; simpl; lia).
  split; [exact Hr|].
  destruct (Convert_int 2 empty_world Hr) as (H1 & H2 & H3). split.
  - rewrite H1, H2 by lia. reflexivity.
  - apply (H3 BInt16). set_solver.
Defined.

(** C7. [true], [false], the [int] 2, the [uint64] 3, the [float64]
    3.14159 and the string "sample" are converted to the Python objects
    [True], [False], 2, 3, 3.14159 and "sample"; the world after the call
    is the world before it, so no [Register] call was made and
    [NumHandles()] is unchanged. *)
Theorem Convert_primitives (w : World) :
  Convert (Some (TBasic BBool, VBool true)) w = (Returns Py_True, w) ∧
  Convert (Some (TBasic BBool, VBool false)) w = (Returns Py_False, w) ∧
  Convert (Some (TBasic BInt, VInt 2)) w = (Returns (PyLong 2), w) ∧
  Convert (Some (TBasic BUint64, VInt 3)) w = (Returns (PyLong 3), w) ∧
  Convert (Some (TBasic BFloat64, VFloat 3.14159)) w =
    (Returns (PyFloat 3.14159), w) ∧
  Convert (Some (TBasic BString, VString "sample")) w =
    (Returns (PyUnicode "sample"), w) ∧
  ∀ arg, arg ∈ [Some (TBasic BBool, VBool true); Some (TBasic BBool, VBool false);
                Some (TBasic BInt, VInt 2); Some (TBasic BUint64, VInt 3);
                Some (TBasic BFloat64, VFloat 3.14159);
                Some (TBasic BString, VString "sample")] →
         NumHandles (Convert arg w).2 = NumHandles w ∧
         handles (Convert arg w).2 = handles w.
Proof.
  do 6 (split; [by rewrite Convert_equation_1|]).
  intros arg Harg.
  repeat (apply elem_of_cons in Harg as [->|Harg]);
    [..|by apply elem_of_nil in Harg];
    by rewrite Convert_equation_1.
Qed.

(** ** The text payloads *)

(** The rendering [Value.String] of a value that is not a string. *)
Lemma Value_String_other (t : GoType) (x : GoVal) :
  Type_Kind t ≠ String_ →
  Value_String (reflect_ValueOf (Some (t, x))) = "<" +:+ Type_String t +:+ " Value>".
Proof. intros Hk. simpl. by destruct (Type_Kind t), x. Qed.

(** C6. A value whose kind has no case in the switch (a channel, a
    function, an integer or float of a width without a case, a nil
    interface, ...) makes [Convert] return a text: the name of the kind
    followed by the rendering [Value.String] of the value (read as a C
    string), which is ["<T Value>"] for a value of type [T]. [Convert]
    does not panic on it and leaves the world as it was. *)
Theorem Convert_unsupported_shape (arg : iface) (w : World) :
  has_case (Value_Kind (reflect_ValueOf arg)) = false →
  Convert arg w =
    (Returns (PyUnicode (Kind_String (Value_Kind (reflect_ValueOf arg)) +:+
                         c_str (Value_String (reflect_ValueOf arg)))), w) ∧
  (∀ t x, arg = Some (t, x) →
     Value_String (reflect_ValueOf arg) = "<" +:+ Type_String t +:+ " Value>") ∧
  (arg = None → Value_String (reflect_ValueOf arg) = "<invalid Value>").
Proof.
  intros Hno. split; [|split].
  - rewrite Convert_default by done.
    unfold gopy_build_string, C_CString. cbn [Py_BuildValue].
    by rewrite c_str_app by apply Kind_String_c_str.
  - intros t x ->. apply Value_String_other. intros Hk. simpl in Hno.
    by rewrite Hk in Hno.
  - by intros ->.
Qed.

Lemma Convert_unsupported_shape_witness :
  Convert (Some (TChan (TBasic BInt), VRef 1%positive)) empty_world =
    (Returns (PyUnicode "chan<chan int Value>"), empty_world) ∧
  Convert (Some (TFunc [TBasic BInt] [], VRef 1%positive)) empty_world =
    (Returns (PyUnicode "func<func(int) Value>"), empty_world) ∧
  Convert (Some (TBasic BFloat32, VFloat 1.5)) empty_world =
    (Returns (PyUnicode "float32<float32 Value>"), empty_world) ∧
  Convert None empty_world =
    (Returns (PyUnicode "invalid<invalid Value>"), empty_world).
Proof.
  split; [|split; [|split]].
  - exact (proj1 (Convert_unsupported_shape
                    (Some (TChan (TBasic BInt), VRef 1%positive)) empty_world eq_refl)).
  - exact (proj1 (Convert_unsupported_shape
                    (Some (TFunc [TBasic BInt] [], VRef 1%positive)) empty_world eq_refl)).
  - exact (proj1 (Convert_unsupported_shape
                    (Some (TBasic BFloat32, VFloat 1.5)) empty_world eq_refl)).
  - exact (proj1 (Convert_unsupported_shape None empty_world eq_refl)).
Defined.

Lemma assert_map_string_interface_None (t : GoType) (x : GoVal) :
  t ≠ TMap (TBasic BString) TInterface →
  assert_map_string_interface (Some (t, x)) = None.
Proof.
  intros Ht. destruct t as [| | |k e| | | | |]; try done.
  destruct k as [[]| | | | | | | |]; try done. by destruct e.
Qed.

(** C10. A map whose type is not [map[string]interface{}] itself (a
    [map[string]string], a map with integer keys, ...) makes [Convert]
    return the text "Invalid type: " followed by the kind, "map", and by
    " value:" and the rendering ["<T Value>"] of the value; the world after
    the call is the world before it, so no [Register] call was made and no
    handle was allocated. *)
Theorem Convert_other_map (t : GoType) (x : GoVal) (w : World) :
  Type_Kind t = Map →
  t ≠ TMap (TBasic BString) TInterface →
  Convert (Some (t, x)) w =
    (Returns (PyUnicode ("Invalid type: " +:+ Kind_String Map +:+ " value:" +:+
                         c_str ("<" +:+ Type_String t +:+ " Value>"))), w) ∧
  NumHandles (Convert (Some (t, x)) w).2 = NumHandles w.
Proof.
  intros Hk Ht.
  assert (Convert (Some (t, x)) w =
    (Returns (PyUnicode ("Invalid type: " +:+ Kind_String Map +:+ " value:" +:+
                         c_str ("<" +:+ Type_String t +:+ " Value>"))), w)) as ->.
  { rewrite Convert_Map_invalid
      by (done || by apply assert_map_string_interface_None).
    rewrite Value_String_other by (by rewrite Hk).
    unfold gopy_build_string, C_CString. cbn [Py_BuildValue].
    change ("Invalid type: " +:+ "map" +:+ " value:" +:+
            "<" +:+ Type_String t +:+ " Value>")
      with ("Invalid type: map value:" +:+ ("<" +:+ Type_String t +:+ " Value>")).
    by rewrite c_str_app. }
  done.
Qed.

Lemma Convert_other_map_witness :
  Convert (Some (TMap (TBasic BString) (TBasic BString), VMapRef 1%positive))
    empty_world =
    (Returns (PyUnicode "Invalid type: map value:<map[string]string Value>"),
     empty_world) ∧
  Convert (Some (TMap (TBasic BInt) TInterface, VMapRef 1%positive)) empty_world =
    (Returns (PyUnicode "Invalid type: map value:<map[int]interface {} Value>"),
     empty_world).
Proof.
  split.
  - exact (proj1 (Convert_other_map (TMap (TBasic BString) (TBasic BString))
                    (VMapRef 1%positive) empty_world eq_refl ltac:(discriminate))).
  - exact (proj1 (Convert_other_map (TMap (TBasic BInt) TInterface)
                    (VMapRef 1%positive) empty_world eq_refl ltac:(discriminate))).
Defined.

(** ** The boxed-indirection path *)

Lemma load_Some_dom (a : loc) (v : GoVal) (w : World) :
  load a w = Some v → a ∈ dom (heap w).
Proof.
  unfold load. intros H. apply elem_of_dom.
  destruct (heap w !! a); [by eexists|done].
Qed.

Lemma load_store_eq (a : loc) (v : GoVal) (w : World) :
  load a (store a v w) = Some v.
Proof. unfold load, store. simpl. by rewrite lookup_insert_eq. Qed.

Lemma load_store_ne (a b : loc) (v : GoVal) (w : World) :
  a ≠ b → load b (store a v w) = load b w.
Proof. intros Hab. unfold load, store. simpl. by rewrite lookup_insert_ne. Qed.

(** The struct case: the boxed value is a pointer to a new cell, which
    holds the interface value [arg] that [Convert] received. *)
Lemma Convert_Struct_boxes_copy (arg : iface) (w : World) :
  Value_Kind (reflect_ValueOf arg) = Struct →
  ∃ name h p w1,
    Convert arg w = (Returns (Py_BuildGenericStruct name h), w1) ∧
    last_piece (strings_Split (fmt_Sprintf_T arg) ".") = Some name ∧
    h = gopyh.ctr (handles w) + 1 ∧
    p = fresh (dom (heap w)) ∧
    heap w1 = <[p := OVar (VIface arg)]> (heap w) ∧
    handles w1 =
      (gopyh.Register (fmt_Sprintf_T arg) (Some (TPtr TInterface, VPtr p))
         (handles w)).2.
Proof.
  intros Hk. rewrite Convert_Struct by done.
  destruct (build_generic_Returns (fmt_Sprintf_T arg) (gopyh.ctr (handles w) + 1))
    as (name & Hname & Hb).
  exists name, (gopyh.ctr (handles w) + 1), (fresh (dom (heap w))).
  eexists. cbn zeta. cbn [fst snd gopyh.Register]. rewrite Hb.
  by repeat split.
Qed.

(** The pointer case: the boxed value is the pointer itself, and the heap
    is untouched. *)
Lemma Convert_Ptr_boxes_pointer (arg : iface) (w : World) :
  Value_Kind (reflect_ValueOf arg) = Ptr →
  ∃ name h w1,
    Convert arg w = (Returns (Py_BuildGenericStruct name h), w1) ∧
    last_piece (strings_Split (fmt_Sprintf_T arg) ".") = Some name ∧
    h = gopyh.ctr (handles w) + 1 ∧
    heap w1 = heap w ∧
    handles w1 = (gopyh.Register (fmt_Sprintf_T arg) arg (handles w)).2.
Proof.
  intros Hk. rewrite Convert_Ptr by done.
  destruct (build_generic_Returns (fmt_Sprintf_T arg) (gopyh.ctr (handles w) + 1))
    as (name & Hname & Hb).
  exists name, (gopyh.ctr (handles w) + 1).
  eexists. cbn zeta. cbn [fst snd gopyh.Register]. rewrite Hb.
  by repeat split.
Qed.

(** C3. A struct passed by value: the caller's struct is the variable at
    [a]; [Convert] receives its value [s] and registers a pointer [p] to a
    new cell that holds a copy. [p] is no location of the caller's heap,
    so an assignment to the caller's variable is not seen through the
    handle, and an assignment through the handle is not seen in the
    caller's variable. A pointer [a] to the struct: [Convert] registers
    [a] itself, so the handle and the caller read and write the same
    cell. *)
Theorem Convert_struct_copy_pointer_alias (t : GoType) (s : GoVal) (a : loc)
    (w : World) :
  Type_Kind t = Struct →
  load a w = Some s →
  (∃ name h p w1,
     Convert (Some (t, s)) w = (Returns (Py_BuildGenericStruct name h), w1) ∧
     Lookup h w1 = inr (Some (TPtr TInterface, VPtr p)) ∧
     handle_target h w1 = Some p ∧
     (p ∉ dom (heap w)) ∧ p ≠ a ∧
     load p w1 = Some (VIface (Some (t, s))) ∧
     load a w1 = Some s ∧
     (∀ s', handle_target h (store a s' w1) = Some p ∧
            load p (store a s' w1) = Some (VIface (Some (t, s)))) ∧
     (∀ v', load a (store p v' w1) = Some s)) ∧
  (∃ name h w1,
     Convert (Some (TPtr t, VPtr a)) w = (Returns (Py_BuildGenericStruct name h), w1) ∧
     Lookup h w1 = inr (Some (TPtr t, VPtr a)) ∧
     handle_target h w1 = Some a ∧
     load a w1 = Some s ∧
     (∀ s', handle_target h (store a s' w1) = Some a ∧
            load a (store a s' w1) = Some s')).
Proof.
  intros Hk Ha. split.
  - destruct (Convert_Struct_boxes_copy (Some (t, s)) w Hk)
      as (name & h & p & w1 & HC & _ & -> & Hp & Hheap & Hreg).
    assert (p ∉ dom (heap w)) as Hfresh by (subst p; apply is_fresh).
    assert (p ≠ a) as Hpa.
    { intros ->. apply Hfresh. by apply (load_Some_dom _ s). }
    assert (Lookup (gopyh.ctr (handles w) + 1) w1 =
            inr (Some (TPtr TInterface, VPtr p))) as HL.
    { unfold Lookup. rewrite Hreg. apply Lookup_Register. }
    assert (load p w1 = Some (VIface (Some (t, s)))) as Hlp.
    { unfold load. by rewrite Hheap, lookup_insert_eq. }
    assert (load a w1 = Some s) as Hla.
    { unfold load in *. by rewrite Hheap, lookup_insert_ne. }
    exists name, (gopyh.ctr (handles w) + 1), p, w1.
    repeat split; try done.
    + unfold handle_target. by rewrite HL.
    + unfold handle_target, Lookup in *. simpl. by rewrite HL.
    + by rewrite load_store_ne.
    + intros v'. by rewrite load_store_ne.
  - destruct (Convert_Ptr_boxes_pointer (Some (TPtr t, VPtr a)) w eq_refl)
      as (name & h & w1 & HC & _ & -> & Hheap & Hreg).
    assert (Lookup (gopyh.ctr (handles w) + 1) w1 = inr (Some (TPtr t, VPtr a)))
      as HL.
    { unfold Lookup. rewrite Hreg. apply Lookup_Register. }
    exists name, (gopyh.ctr (handles w) + 1), w1.
    repeat split; try done.
    + unfold handle_target. by rewrite HL.
    + unfold load in *. by rewrite Hheap.
    + unfold handle_target, Lookup in *. simpl. by rewrite HL.
    + apply load_store_eq.
Qed.

Lemma Convert_struct_copy_pointer_alias_witness :
  let s := VStruct [("Value", VInt 6)] in
  let w := mkWorld {[1%positive := OVar s]} gopyh.empty in
  Type_Kind ifxmap.TestStruct = Struct ∧
  load 1%positive w = Some s ∧
  (∃ h p w1,
     (Convert (Some (ifxmap.TestStruct, s)) w).2 = w1 ∧
     handle_target h w1 = Some p ∧ p ≠ 1%positive ∧
     load p (store 1%positive (VStruct [("Value", VInt 7)]) w1) =
       Some (VIface (Some (ifxmap.TestStruct, s)))) ∧
  (∃ h w1,
     (Convert (Some (TPtr ifxmap.TestStruct, VPtr 1%positive)) w).2 = w1 ∧
     handle_target h w1 = Some 1%positive ∧
     load 1%positive (store 1%positive (VStruct [("Value", VInt 7)]) w1) =
       Some (VStruct [("Value", VInt 7)])).
Proof.
  intros s w.
  assert (load 1%positive w = Some s) as Hload by (vm_compute; reflexivity).
  split; [reflexivity|]. split; [exact Hload|].
  destruct (Convert_struct_copy_pointer_alias ifxmap.TestStruct s 1%positive w
              eq_refl Hload) as [Hval Hptr].
  split.
  - destruct Hval as (name & h & p & w1 & HC & _ & Ht & _ & Hpa & _ & _ & Hs & _).
    exists h, p, w1. rewrite HC. split; [reflexivity|]. split; [exact Ht|].
    split; [exact Hpa|]. apply Hs.
  - destruct Hptr as (name & h & w1 & HC & _ & Ht & _ & Hs).
    exists h, w1. rewrite HC. split; [reflexivity|]. split; [exact Ht|]. apply Hs.
Defined.

(** C8. Converting a [map[string]interface{}] whose storage holds
    [entries] makes exactly one [Register] call: the registry after the
    call is the registry before it with one entry more, the new handle [h]
    is the one in the descriptor, and a proxy that reads through [h] sees
    the map [entries], every key with its value and no other key. *)
Theorem Convert_map_one_handle (m : loc) (entries : gmap string iface)
    (w : World) :
  gopyh.wf (handles w) →
  heap w !! m = Some (OMap entries) →
  ∃ h p w1,
    Convert (Some (ifxmap.map_string_interface, VMapRef m)) w =
      (Returns (Build_Map_string_interface h), w1) ∧
    (h, handles w1) =
      gopyh.Register "map[string]interface {}"
        (Some (TPtr ifxmap.map_string_interface, VPtr p)) (handles w) ∧
    NumHandles w1 = NumHandles w + 1 ∧
    boxed_map h w1 = Some entries ∧
    ∀ key, Map_string_interface_elem h key w1 = entries !! key.
Proof.
  intros Hwf Hm. rewrite Convert_Map_boxed. cbn zeta.
  set (p := fresh (dom (heap w))).
  assert (p ≠ m) as Hpm.
  { intros Heq. apply (is_fresh (dom (heap w))). fold p. rewrite Heq.
    apply elem_of_dom. by eexists. }
  assert (boxed_map (gopyh.ctr (handles w) + 1)
            (mkWorld (<[p := OVar (VMapRef m)]> (heap w))
               (gopyh.Register "map[string]interface {}"
                  (Some (TPtr ifxmap.map_string_interface, VPtr p)) (handles w)).2)
          = Some entries) as Hb.
  { unfold boxed_map, Lookup. cbn [handles]. rewrite Lookup_Register.
    unfold load. cbn [heap]. rewrite lookup_insert_eq.
    by rewrite lookup_insert_ne, Hm. }
  exists (gopyh.ctr (handles w) + 1), p,
    (mkWorld (<[p := OVar (VMapRef m)]> (heap w))
       (gopyh.Register "map[string]interface {}"
          (Some (TPtr ifxmap.map_string_interface, VPtr p)) (handles w)).2).
  split; [reflexivity|]. split; [reflexivity|].
  split; [|split].
  - unfold NumHandles. cbn [handles]. by apply NumHandles_Register.
  - exact Hb.
  - intros key. unfold Map_string_interface_elem. by rewrite Hb.
Qed.

Lemma Convert_map_one_handle_witness :
  let w := mkWorld {[1%positive := OMap ifxmap.inner_map]} gopyh.empty in
  gopyh.wf (handles w) ∧
  heap w !! 1%positive = Some (OMap ifxmap.inner_map) ∧
  ∃ h w1,
    Convert (Some (ifxmap.map_string_interface, VMapRef 1%positive)) w =
      (Returns (Build_Map_string_interface h), w1) ∧
    NumHandles w1 = 1 ∧
    boxed_map h w1 = Some ifxmap.inner_map ∧
    Map_string_interface_elem h "string" w1 = Some (Some (TBasic BString, VString "abcd")) ∧
    Map_string_interface_elem h "int" w1 = Some (Some (TBasic BInt, VInt 1)) ∧
    Map_string_interface_elem h "float" w1 = Some (Some (TBasic BFloat64, VFloat 2.69)) ∧
    dom ifxmap.inner_map = {["string"; "int"; "float"]}.
Proof.
  intros w.
  assert (heap w !! 1%positive = Some (OMap ifxmap.inner_map)) as Hm
    by (vm_compute; reflexivity).
  split; [apply wf_empty|]. split; [exact Hm|].
  destruct (Convert_map_one_handle 1%positive ifxmap.inner_map w wf_empty Hm)
    as (h & p & w1 & HC & _ & HN & Hb & He).
  exists h, w1. split; [exact HC|]. split; [exact HN|]. split; [exact Hb|].
  rewrite !He. split; [reflexivity|]. split; [reflexivity|].
  split; [reflexivity|]. unfold ifxmap.inner_map. rewrite !dom_insert_L.
  rewrite dom_empty_L. set_solver.
Defined.

Lemma C_longlong_succ_ne (z : Z) : C_longlong z ≠ C_longlong (z + 1).
Proof.
  unfold C_longlong. change (2 ^ 63) with 9223372036854775808.
  change (2 ^ 64) with 18446744073709551616.
  pose proof (Z.div_mod (z + 9223372036854775808) 18446744073709551616).
  pose proof (Z.div_mod (z + 1 + 9223372036854775808) 18446744073709551616).
  lia.
Qed.

(** One conversion on the boxed path: the descriptor carries the next
    handle of the counter, and the registry after the call is the registry
    before it after one [Register]. The shape of the descriptor depends on
    the value only. *)
Lemma Convert_boxed_path_step (arg : iface) :
  boxed_path arg = true →
  ∃ descr : Z → PyObject,
    (descr = Build_Map_string_interface ∨
     ∃ name, descr = Py_BuildGenericStruct name) ∧
    ∀ w, ∃ typnm boxed hp,
      Convert arg w =
        (Returns (descr (gopyh.ctr (handles w) + 1)),
         mkWorld hp (gopyh.Register typnm boxed (handles w)).2).
Proof.
  unfold boxed_path. intros Hb.
  destruct (Value_Kind (reflect_ValueOf arg)) eqn:Hk; try discriminate Hb.
  - apply bool_decide_eq_true in Hb as [x Hx].
    destruct arg as [[t v]|]; [|done].
    destruct t as [| | |[[]| | | | | | | |] [] | | | | |]; try done.
    injection Hx as ->. exists Build_Map_string_interface. split; [by left|].
    intros w. rewrite Convert_Map_boxed. cbn zeta. by eexists _, _, _.
  - destruct (last_piece_Split (fmt_Sprintf_T arg) ".") as [name Hname].
    exists (Py_BuildGenericStruct (C_CString name)). split; [by eauto|].
    intros w. rewrite Convert_Ptr by done. cbn zeta.
    unfold build_generic. rewrite Hname. by eexists _, _, _.
  - destruct (last_piece_Split (fmt_Sprintf_T arg) ".") as [name Hname].
    exists (Py_BuildGenericStruct (C_CString name)). split; [by eauto|].
    intros w. rewrite Convert_Struct by done. cbn zeta.
    unfold build_generic. rewrite Hname. by eexists _, _, _.
Qed.

Lemma descriptor_succ_ne (descr : Z → PyObject) (h : Z) :
  descr = Build_Map_string_interface ∨ (∃ name, descr = Py_BuildGenericStruct name) →
  descr h ≠ descr (h + 1).
Proof.
  intros [->|[name ->]]; unfold Build_Map_string_interface, Py_BuildGenericStruct;
    simpl; intros [= Heq]; by apply (C_longlong_succ_ne h).
Qed.

(** C9. Two conversions of the same struct, pointer or
    [map[string]interface{}], one after the other, give two descriptors of
    the same shape with two different handles; both handles are live
    afterwards and the registry has two entries more: no earlier handle is
    given again for the same value. *)
Theorem Convert_twice_distinct_handles (arg : iface) (w : World) :
  gopyh.wf (handles w) →
  boxed_path arg = true →
  ∃ (descr : Z → PyObject) h1 h2 w1 w2,
    (descr = Build_Map_string_interface ∨
     ∃ name, descr = Py_BuildGenericStruct name) ∧
    Convert arg w = (Returns (descr h1), w1) ∧
    Convert arg w1 = (Returns (descr h2), w2) ∧
    h1 ≠ h2 ∧
    descr h1 ≠ descr h2 ∧
    (∃ v1, Lookup h1 w2 = inr v1) ∧
    (∃ v2, Lookup h2 w2 = inr v2) ∧
    NumHandles w2 = NumHandles w + 2.
Proof.
  intros Hwf Hb.
  destruct (Convert_boxed_path_step arg Hb) as (descr & Hd & Hstep).
  destruct (Hstep w) as (t1 & b1 & hp1 & H1).
  set (w1 := mkWorld hp1 (gopyh.Register t1 b1 (handles w)).2) in *.
  destruct (Hstep w1) as (t2 & b2 & hp2 & H2).
  set (w2 := mkWorld hp2 (gopyh.Register t2 b2 (handles w1)).2) in *.
  exists descr, (gopyh.ctr (handles w) + 1), (gopyh.ctr (handles w1) + 1), w1, w2.
  assert (gopyh.ctr (handles w1) = gopyh.ctr (handles w) + 1) as Hc by done.
  split; [done|]. split; [done|]. split; [done|]. split; [lia|].
  split; [rewrite Hc; by apply descriptor_succ_ne|].
  split; [|split].
  - exists b1. unfold Lookup, w2. cbn [handles].
    rewrite Lookup_Register_other by lia. apply Lookup_Register.
  - exists b2. unfold Lookup, w2. cbn [handles]. apply Lookup_Register.
  - unfold NumHandles, w2. cbn [handles].
    rewrite NumHandles_Register by (by apply Register_wf).
    unfold w1. cbn [handles]. rewrite NumHandles_Register by done. lia.
Qed.

Lemma Convert_twice_distinct_handles_witness :
  let arg := Some (ifxmap.TestStruct, VStruct [("Value", VInt 6)]) in
  gopyh.wf (handles empty_world) ∧
  boxed_path arg = true ∧
  ∃ (h1 h2 : Z) (w1 w2 : World),
    (Convert arg empty_world).2 = w1 ∧ (Convert arg w1).2 = w2 ∧
    h1 ≠ h2 ∧ NumHandles w2 = 2.
Proof.
  intros arg. split; [apply wf_empty|]. split; [reflexivity|].
  destruct (Convert_twice_distinct_handles arg empty_world wf_empty eq_refl)
    as (descr & h1 & h2 & w1 & w2 & _ & H1 & H2 & Hne & _ & _ & _ & HN).
  exists h1, h2, w1, w2. rewrite H1. split; [reflexivity|]. cbn [snd].
  rewrite H2. split; [reflexivity|]. split; [exact Hne|exact HN].
Defined.

(** The struct of [maps.go], converted twice from the empty world: the
    descriptors carry the handles 1 and 2. *)
Example Convert_TestStruct_twice :
  let arg := Some (ifxmap.TestStruct, VStruct [("Value", VInt 6)]) in
  (Convert arg empty_world).1 =
    Returns (PyCall "out.ifxmap" "TestStruct" [PyLong 1] []) ∧
  (Convert arg (Convert arg empty_world).2).1 =
    Returns (PyCall "out.ifxmap" "TestStruct" [PyLong 2] []).
Proof. split; vm_compute; reflexivity. Qed.

(** ** Interface values *)

(** The switch of [Convert] sees the kind of the dynamic type: on a value
    whose dynamic type is not an interface type the [Interface] case is
    not the one taken. *)
(** What lines 115-116 do with a value of kind [Interface], which no Go
    value passed to [Convert] has: the [reflect.Value] is boxed as a
    struct of type [reflect.Value]; the value inside is not converted. *)
Example Convert_Interface_case :
  Convert (Some (TInterface, VIface (Some (TBasic BInt, VInt 2)))) empty_world =
    (Returns (PyCall "out.ifxmap" "Value" [PyLong 1] []),
     mkWorld
       {[1%positive :=
           OVar (VIface (iface_of_Value
                           (Some (TInterface, VIface (Some (TBasic BInt, VInt 2))))))]}
       (gopyh.mkRegistry 1
          {[1 := gopyh.mkEntry (Some (TPtr TInterface, VPtr 1%positive))
                   "reflect.Value" 1]})).
Proof. rewrite Convert_Interface_boxes_Value by done. reflexivity. Qed.

Lemma concrete_nesting (arg : iface) : concrete arg → nesting arg = 0%nat.
Proof.
  unfold concrete, nesting. by destruct (Value_Kind (reflect_ValueOf arg)).
Qed.

Lemma pass_as_interface_concrete (S : GoType) (x : GoVal) :
  Type_Kind S ≠ Interface → pass_as_interface S x = Some (S, x).
Proof. unfold pass_as_interface. by destruct (Type_Kind S). Qed.



(** * Further properties of the code *)

(** ** What [Convert] changes *)

Lemma boxed_path_concrete (arg : iface) : boxed_path arg = true → concrete arg.
Proof.
  unfold boxed_path, concrete.
  by destruct (Value_Kind (reflect_ValueOf arg)).
Qed.

(** Off the boxed path the world is left as it was. *)
Lemma Convert_unboxed_world (arg : iface) (w : World) :
  concrete arg → boxed_path arg = false → (Convert arg w).2 = w.
Proof.
  unfold boxed_path, concrete in *. intros Hc Hb.
  destruct (Value_Kind (reflect_ValueOf arg)) eqn:Hk; try done;
    try (by rewrite Convert_default by (by rewrite Hk)).
  - Convert_case. by destruct (assert_bool arg) as [[]|].
  - Convert_case. by destruct (assert_int arg).
  - Convert_case. by destruct (assert_uint64 arg).
  - Convert_case. by destruct (assert_float64 arg).
  - apply bool_decide_eq_false in Hb.
    rewrite Convert_Map_invalid; [done..|].
    destruct (assert_map_string_interface arg); [|done].
    exfalso. apply Hb. by eexists.
  - Convert_case. by destruct (assert_string arg).
Qed.

(** X1. A value that is not of an interface kind leaves the heap and the
    registry exactly as they were when it is not a struct, a pointer or a
    [map[string]interface{}] (also when [Convert] panics on it), and
    only then: on the boxed path the counter of the registry has
    advanced. *)
Theorem Convert_world_unchanged_iff (arg : iface) (w : World) :
  concrete arg →
  ((Convert arg w).2 = w ↔ boxed_path arg = false).
Proof.
  intros Hc. split.
  - intros Hw. destruct (boxed_path arg) eqn:Hb; [|done].
    destruct (Convert_boxed_path_step arg Hb) as (descr & _ & Hstep).
    destruct (Hstep w) as (typnm & boxed & hp & HC).
    rewrite HC in Hw. simpl in Hw.
    apply (f_equal (λ w, gopyh.ctr (handles w))) in Hw. simpl in Hw. lia.
  - by apply Convert_unboxed_world.
Qed.

Lemma Convert_world_unchanged_iff_witness :
  concrete ModeGen ∧
  (Convert ModeGen empty_world).2 = empty_world ∧
  concrete (Some (ifxmap.TestStruct, VStruct [("Value", VInt 6)])) ∧
  (Convert (Some (ifxmap.TestStruct, VStruct [("Value", VInt 6)])) empty_world).2
    ≠ empty_world.
Proof.
  assert (concrete ModeGen) as H1 by (unfold concrete; discriminate).
  assert (concrete (Some (ifxmap.TestStruct, VStruct [("Value", VInt 6)]))) as H2
    by (unfold concrete; discriminate).
  split; [exact H1|]. split.
  - apply (proj2 (Convert_world_unchanged_iff ModeGen empty_world H1)). reflexivity.
  - split; [exact H2|]. intros Heq.
    apply (proj1 (Convert_world_unchanged_iff _ empty_world H2)) in Heq.
    discriminate Heq.
Defined.

(** Closes the two directions of an equivalence between a panic and a
    failed assertion, when the assertion is known to hold or to fail. *)
Ltac assertion_known :=
  cbn [fst];
  split;
  [ first
      [ by intros [? ?]
      | intros _; first [reflexivity | apply bool_decide_eq_false; by intros [? ?]] ]
  | let H := fresh "H" in
    intros H;
    first
      [ discriminate H
      | apply bool_decide_eq_false in H; destruct H; by eexists
      | by eexists ] ].

(** [Convert] panics exactly when a type assertion of a primitive case
    fails. *)
Lemma Convert_Panics_iff (arg : iface) (w : World) :
  (∃ msg, (Convert arg w).1 = Panics msg) ↔ assertion_holds arg = false.
Proof.
  unfold assertion_holds.
  destruct (Value_Kind (reflect_ValueOf arg)) eqn:Hk;
    try (rewrite Convert_default by (by rewrite Hk); simpl;
         split; [by intros [? ?]|done]).
  - Convert_case. destruct (assert_bool arg) as [[]|]; assertion_known.
  - Convert_case. destruct (assert_int arg); assertion_known.
  - Convert_case. destruct (assert_uint64 arg); assertion_known.
  - Convert_case. destruct (assert_float64 arg); assertion_known.
  - rewrite Convert_Interface_boxes_Value by done. simpl.
    split; [by intros [? ?]|done].
  - split; [|done]. intros [msg Hm].
    destruct (Convert_Returns_or_assertion arg w) as [(o & w' & HC)|(want & HC & Hin)].
    + rewrite HC in Hm. discriminate Hm.
    + rewrite Hk in Hin.
      repeat (apply elem_of_cons in Hin as [Hin|Hin]; [discriminate Hin|]).
      by apply elem_of_nil in Hin.
  - split; [|done]. intros [msg Hm].
    destruct (Convert_Returns_or_assertion arg w) as [(o & w' & HC)|(want & HC & Hin)].
    + rewrite HC in Hm. discriminate Hm.
    + rewrite Hk in Hin.
      repeat (apply elem_of_cons in Hin as [Hin|Hin]; [discriminate Hin|]).
      by apply elem_of_nil in Hin.
  - Convert_case. destruct (assert_string arg); assertion_known.
  - split; [|done]. intros [msg Hm].
    destruct (Convert_Returns_or_assertion arg w) as [(o & w' & HC)|(want & HC & Hin)].
    + rewrite HC in Hm. discriminate Hm.
    + rewrite Hk in Hin.
      repeat (apply elem_of_cons in Hin as [Hin|Hin]; [discriminate Hin|]).
      by apply elem_of_nil in Hin.
Qed.

Lemma assertion_holds_typed (t : GoType) (x : GoVal) :
  payload_matches t x →
  (assertion_holds (Some (t, x)) = false ↔
   primitive_case (Type_Kind t) = true ∧ ∀ b, t ≠ TBasic b).
Proof.
  unfold payload_matches, assertion_holds. simpl. intros Hp.
  destruct t as [b|pkg name u| | | | | | |]; simpl in *;
    try (split; [done|by intros [? ?]]).
  - destruct b; simpl in *;
      try (split; [done|by intros [_ H]; destruct (H _ eq_refl)]);
      destruct Hp as [v ->]; simpl;
      (split; [done|by intros [_ H]; destruct (H _ eq_refl)]).
  - destruct (Type_Kind u); simpl;
      try (split; [done|by intros [? ?]]);
      (split; [done|intros _; first [reflexivity
                                     |apply bool_decide_eq_false; by intros [? ?]]]).
Qed.



(** The world after a call: the one before it, or the one before it
    after one [Register] and at most one new cell. *)
Lemma Convert_world_shape (arg : iface) (w : World) :
  (Convert arg w).2 = w ∨
  ∃ typnm boxed hp,
    (Convert arg w).2 = mkWorld hp (gopyh.Register typnm boxed (handles w)).2 ∧
    (hp = heap w ∨ ∃ v, hp = <[fresh (dom (heap w)) := OVar v]> (heap w)).
Proof.
  destruct (Value_Kind (reflect_ValueOf arg)) eqn:Hk;
    try (left; apply Convert_unboxed_world;
         [unfold concrete; by rewrite Hk|unfold boxed_path; by rewrite Hk]).
  - right. rewrite Convert_Interface_boxes_Value by done. cbn zeta. cbn [snd].
    eexists _, _, _. split; [reflexivity|]. right. by eexists.
  - destruct (assert_map_string_interface arg) as [x|] eqn:Hm.
    + right. destruct arg as [[t v]|]; [|done].
      destruct t as [| | |[[]| | | | | | | |] [] | | | | |]; try done.
      injection Hm as ->. rewrite Convert_Map_boxed. cbn zeta. cbn [snd].
      eexists _, _, _. split; [reflexivity|]. right. by eexists.
    + left. by rewrite Convert_Map_invalid.
  - right. rewrite Convert_Ptr by done. cbn zeta. cbn [snd].
    eexists _, _, _. split; [reflexivity|]. by left.
  - right. rewrite Convert_Struct by done. cbn zeta. cbn [snd heap].
    eexists _, _, _. split; [reflexivity|]. right. by eexists.
Qed.

(** X3. A call of [Convert], whatever the value, changes nothing that
    existed: the registry stays well formed, every handle that could be
    looked up still gives the same value, the number of handles stays or
    grows by one, and every cell of the heap keeps its content. *)
Theorem Convert_keeps_what_exists (arg : iface) (w : World) :
  gopyh.wf (handles w) →
  gopyh.wf (handles (Convert arg w).2) ∧
  (∀ h v, Lookup h w = inr v → Lookup h (Convert arg w).2 = inr v) ∧
  NumHandles w ≤ NumHandles (Convert arg w).2 ≤ NumHandles w + 1 ∧
  (∀ a o, heap w !! a = Some o → heap (Convert arg w).2 !! a = Some o).
Proof.
  intros Hwf.
  destruct (Convert_world_shape arg w) as [->|(typnm & boxed & hp & -> & Hhp)].
  { split; [done|]. split; [done|]. split; [lia|done]. }
  cbn [handles heap]. split; [by apply Register_wf|]. split; [|split].
  - intros h v Hl. unfold Lookup in *. cbn [handles].
    rewrite Lookup_Register_other; [done|].
    unfold gopyh.Lookup in Hl.
    destruct (gopyh.entries (handles w) !! h) as [e|] eqn:He; [|done].
    apply Hwf in He. lia.
  - unfold NumHandles. cbn [handles]. rewrite NumHandles_Register by done. lia.
  - intros a o Ha. destruct Hhp as [->|[v ->]]; [done|].
    rewrite lookup_insert_ne; [done|]. intros <-.
    apply (is_fresh (dom (heap w))). apply elem_of_dom. by eexists.
Qed.

Lemma Convert_keeps_what_exists_witness :
  let arg := Some (ifxmap.TestStruct, VStruct [("Value", VInt 6)]) in
  let w := (Convert arg empty_world).2 in
  gopyh.wf (handles w) ∧
  Lookup 1 (Convert arg w).2 = inr (Some (TPtr TInterface, VPtr 1%positive)).
Proof.
  intros arg w.
  assert (gopyh.wf (handles w)) as Hwf.
  { apply (Convert_keeps_what_exists arg empty_world wf_empty). }
  split; [exact Hwf|].
  apply (Convert_keeps_what_exists arg w Hwf). vm_compute. reflexivity.
Defined.

(** ** The class name of a descriptor *)

Lemma last_piece_snoc (l : list string) (name : string) :
  last_piece (l ++ [name]) = Some name.
Proof.
  unfold last_piece. rewrite length_app. simpl.
  replace (length l + 1 - 1)%nat with (length l + 0)%nat by lia.
  by rewrite lookup_app_r, Nat.add_0_r, Nat.sub_diag by lia.
Qed.

(** The pieces of [strings.Split]: the last one is the text after the
    last separator, or the whole text when there is no separator. *)
Lemma strings_Split_last (s : string) (sep : ascii) :
  ∃ l name,
    strings_Split s sep = (l ++ [name])%list ∧
    without_byte sep name ∧
    ((l = [] ∧ s = name) ∨ (l ≠ [] ∧ ∃ p, s = p +:+ String sep name)).
Proof.
  induction s as [|c s IH].
  - exists [], EmptyString. simpl. by eauto.
  - destruct IH as (l & name & HS & Hname & Hs). simpl.
    destruct (Ascii.eqb c sep) eqn:Hc.
    + apply Ascii.eqb_eq in Hc as ->.
      exists (EmptyString :: l), name. rewrite HS. split; [done|]. split; [done|].
      right. split; [done|].
      destruct Hs as [[_ ->]|[_ [p ->]]]; [by exists EmptyString|by exists (String sep p)].
    + apply Ascii.eqb_neq in Hc. rewrite HS.
      destruct l as [|piece l0]; simpl.
      * exists [], (String c name). split; [done|]. split; [done|].
        left. destruct Hs as [[_ ->]|[Hl _]]; done.
      * exists (String c piece :: l0), name. split; [done|]. split; [done|].
        right. split; [done|].
        destruct Hs as [[Hl _]|[_ [p ->]]]; [done|by exists (String c p)].
Qed.

Lemma strings_Split_without (s : string) (sep : ascii) :
  without_byte sep s → strings_Split s sep = [s].
Proof.
  induction s as [|c s IH]; simpl; [done|]. intros [Hc Hs].
  apply Ascii.eqb_neq in Hc. rewrite Hc, IH by done. done.
Qed.

(** Behind a separator, a name without separator is the last piece. *)
Lemma strings_Split_app (p name : string) (sep : ascii) :
  without_byte sep name →
  ∃ piece l,
    strings_Split (p +:+ String sep name) sep = (piece :: l ++ [name])%list.
Proof.
  intros Hname. induction p as [|c p (piece & l & IH)]; simpl.
  - rewrite Ascii.eqb_refl, strings_Split_without by done.
    by exists EmptyString, [].
  - rewrite IH. destruct (Ascii.eqb c sep).
    + by exists EmptyString, (piece :: l).
    + by exists (String c piece), l.
Qed.

(** X4. The class that [Convert] asks module [out.ifxmap] for, when the
    value is a struct or a pointer, is the text of [%T] after its last
    dot (all of it when it has no dot, as for a pointer to [int], whose
    class name is "*int"): the package, and the star of a pointer that
    stands before it, are dropped. The handle in the descriptor is the
    next one of the counter. *)
Theorem Convert_class_name (arg : iface) (w : World) :
  Value_Kind (reflect_ValueOf arg) = Struct ∨
  Value_Kind (reflect_ValueOf arg) = Ptr →
  ∃ name,
    (Convert arg w).1 =
      Returns (Py_BuildGenericStruct name (gopyh.ctr (handles w) + 1)) ∧
    without_byte "." name ∧
    (fmt_Sprintf_T arg = name ∨ ∃ p, fmt_Sprintf_T arg = p +:+ "." +:+ name).
Proof.
  intros Hk.
  destruct (strings_Split_last (fmt_Sprintf_T arg) ".") as (l & name & HS & Hn & Hs).
  exists name.
  assert (build_generic (fmt_Sprintf_T arg) (gopyh.ctr (handles w) + 1) =
          Returns (Py_BuildGenericStruct name (gopyh.ctr (handles w) + 1))) as Hb.
  { unfold build_generic. by rewrite HS, last_piece_snoc. }
  split; [|split; [done|]].
  - destruct Hk as [Hk|Hk].
    + rewrite Convert_Struct by done. cbn zeta. cbn [fst gopyh.Register]. exact Hb.
    + rewrite Convert_Ptr by done. cbn zeta. cbn [fst gopyh.Register]. exact Hb.
  - destruct Hs as [[_ ->]|[_ [p ->]]]; [by left|right; by exists p].
Qed.

Lemma Convert_class_name_witness :
  ∃ name,
    (Convert (Some (TPtr (TBasic BInt), VPtr 1%positive)) empty_world).1 =
      Returns (Py_BuildGenericStruct name 1) ∧
    without_byte "." name.
Proof.
  destruct (Convert_class_name (Some (TPtr (TBasic BInt), VPtr 1%positive))
              empty_world (or_intror eq_refl)) as (name & HC & Hn & _).
  exists name. split; [exact HC|exact Hn].
Defined.

(** X5. A struct of a defined type [pkg.Name] and a pointer to it are
    given the same Python class, [Name], while the type names handed to
    [Register] differ: "pkg.Name" for the value and "*pkg.Name" for the
    pointer. *)
Theorem Convert_value_and_pointer_same_class (pkg name : string) (u : GoType)
    (x : GoVal) (a : loc) (w : World) :
  Type_Kind u = Struct →
  without_byte "." name →
  let T := TNamed pkg name u in
  let h := gopyh.ctr (handles w) + 1 in
  (Convert (Some (T, x)) w).1 = Returns (Py_BuildGenericStruct name h) ∧
  (Convert (Some (TPtr T, VPtr a)) w).1 = Returns (Py_BuildGenericStruct name h) ∧
  gopyh.typeName <$> gopyh.entries (handles (Convert (Some (T, x)) w).2) !! h =
    Some (pkg +:+ "." +:+ name) ∧
  gopyh.typeName <$>
    gopyh.entries (handles (Convert (Some (TPtr T, VPtr a)) w).2) !! h =
    Some ("*" +:+ pkg +:+ "." +:+ name).
Proof.
  intros Hu Hname T h.
  destruct (strings_Split_app pkg name "." Hname) as (q1 & l1 & H1).
  destruct (strings_Split_app ("*" +:+ pkg) name "." Hname) as (q2 & l2 & H2).
  rewrite Convert_Struct by done. rewrite Convert_Ptr by done.
  cbn zeta. cbn [fst snd gopyh.Register handles gopyh.entries].
  rewrite !lookup_insert_eq. unfold build_generic.
  change (fmt_Sprintf_T (Some (T, x))) with (pkg +:+ String "." name).
  change (fmt_Sprintf_T (Some (TPtr T, VPtr a)))
    with (("*" +:+ pkg) +:+ String "." name).
  rewrite H1, H2.
  change (q1 :: l1 ++ [name])%list with ((q1 :: l1) ++ [name])%list.
  change (q2 :: l2 ++ [name])%list with ((q2 :: l2) ++ [name])%list.
  by rewrite !last_piece_snoc.
Qed.

Lemma Convert_value_and_pointer_same_class_witness :
  (Convert (Some (ifxmap.TestStruct, VStruct [("Value", VInt 6)])) empty_world).1 =
    Returns (PyCall "out.ifxmap" "TestStruct" [PyLong 1] []) ∧
  (Convert (Some (TPtr ifxmap.TestStruct, VPtr 1%positive)) empty_world).1 =
    Returns (PyCall "out.ifxmap" "TestStruct" [PyLong 1] []).
Proof.
  destruct (Convert_value_and_pointer_same_class "ifxmap" "TestStruct"
              (TStruct [("Value", TBasic BInt)]) (VStruct [("Value", VInt 6)])
              1%positive empty_world eq_refl) as (H1 & H2 & _).
  { simpl. repeat (split; [discriminate|]). exact I. }
  split; [exact H1|exact H2].
Defined.

(** ** Maps are boxed by reference *)

(** X6. Converting a [map[string]interface{}] copies no entry: the
    pointer registered leads to a new cell that holds the caller's map
    reference, and the storage of the map is untouched. An assignment
    [m[key] = v] made afterwards on the caller's map is what a read
    through the handle sees. *)
Theorem Convert_map_shares_storage (m : loc) (entries : gmap string iface)
    (w : World) :
  heap w !! m = Some (OMap entries) →
  ∃ h p w1,
    Convert (Some (ifxmap.map_string_interface, VMapRef m)) w =
      (Returns (Build_Map_string_interface h), w1) ∧
    handle_target h w1 = Some p ∧
    (p ∉ dom (heap w)) ∧
    load p w1 = Some (VMapRef m) ∧
    heap w1 !! m = Some (OMap entries) ∧
    ∀ key v,
      boxed_map h (map_assign m key v w1) = Some (<[key := v]> entries) ∧
      Map_string_interface_elem h key (map_assign m key v w1) = Some v.
Proof.
  intros Hm. rewrite Convert_Map_boxed. cbn zeta.
  set (p := fresh (dom (heap w))).
  set (r := (gopyh.Register "map[string]interface {}"
               (Some (TPtr ifxmap.map_string_interface, VPtr p)) (handles w)).2).
  set (w1 := mkWorld (<[p := OVar (VMapRef m)]> (heap w)) r).
  assert (p ∉ dom (heap w)) as Hfresh by apply is_fresh.
  assert (p ≠ m) as Hpm.
  { intros ->. apply Hfresh, elem_of_dom. by eexists. }
  assert (heap w1 !! m = Some (OMap entries)) as Hm1.
  { unfold w1. cbn [heap]. by rewrite lookup_insert_ne. }
  assert (Lookup (gopyh.ctr (handles w) + 1) w1 =
          inr (Some (TPtr ifxmap.map_string_interface, VPtr p))) as HL.
  { unfold Lookup, w1, r. cbn [handles]. apply Lookup_Register. }
  assert (∀ key v, boxed_map (gopyh.ctr (handles w) + 1) (map_assign m key v w1)
                   = Some (<[key := v]> entries)) as Hb.
  { intros key v. unfold map_assign. rewrite Hm1.
    unfold boxed_map, Lookup in *. cbn [handles heap]. rewrite HL.
    unfold load. cbn [heap].
    rewrite lookup_insert_ne by done.
    unfold w1. cbn [heap]. rewrite lookup_insert_eq.
    by rewrite lookup_insert_eq. }
  exists (gopyh.ctr (handles w) + 1), p, w1. split; [done|].
  split; [unfold handle_target; by rewrite HL|].
  split; [done|]. split.
  { unfold load, w1. cbn [heap]. by rewrite lookup_insert_eq. }
  split; [done|]. intros key v. split; [apply Hb|].
  unfold Map_string_interface_elem. rewrite Hb. simpl. apply lookup_insert_eq.
Qed.

Lemma Convert_map_shares_storage_witness :
  let w := mkWorld {[1%positive := OMap ifxmap.inner_map]} gopyh.empty in
  heap w !! 1%positive = Some (OMap ifxmap.inner_map) ∧
  ∃ h w1,
    (Convert (Some (ifxmap.map_string_interface, VMapRef 1%positive)) w).2 = w1 ∧
    Map_string_interface_elem h "int"
      (map_assign 1%positive "int" (Some (TBasic BInt, VInt 7)) w1) =
      Some (Some (TBasic BInt, VInt 7)).
Proof.
  intros w.
  assert (heap w !! 1%positive = Some (OMap ifxmap.inner_map)) as Hm
    by (vm_compute; reflexivity).
  split; [exact Hm|].
  destruct (Convert_map_shares_storage 1%positive ifxmap.inner_map w Hm)
    as (h & p & w1 & HC & _ & _ & _ & _ & Hw).
  exists h, w1. rewrite HC. split; [reflexivity|]. apply Hw.
Defined.

(** ** Conversions one after the other *)

Lemma NumHandles_Convert (arg : iface) (w : World) :
  gopyh.wf (handles w) → concrete arg →
  gopyh.wf (handles (Convert arg w).2) ∧
  NumHandles (Convert arg w).2 =
    NumHandles w + (if boxed_path arg then 1 else 0).
Proof.
  intros Hwf Hc. destruct (boxed_path arg) eqn:Hb.
  - destruct (Convert_boxed_path_step arg Hb) as (descr & _ & Hstep).
    destruct (Hstep w) as (typnm & boxed & hp & ->). cbn [snd].
    unfold NumHandles. cbn [handles].
    split; [by apply Register_wf|by apply NumHandles_Register].
  - rewrite Convert_unboxed_world by done. split; [done|lia].
Qed.

Lemma count_boxed_cons (arg : iface) (args : list iface) :
  count_boxed (arg :: args) =
    (if boxed_path arg then 1 else 0) + count_boxed args.
Proof.
  unfold count_boxed. rewrite filter_cons.
  destruct (decide (boxed_path arg = true)) as [Hb|Hb].
  - rewrite Hb. simpl. lia.
  - destruct (boxed_path arg); [done|]. lia.
Qed.



(** ** Integers across the boundary *)

(** X8. A [uint64] crosses exactly, over its whole range. An [int] crosses
    exactly when it is not negative; a negative [int] [x] arrives as
    [x + 2^64], because [gopy_build_int64] builds with the format of an
    unsigned long. *)
Theorem Convert_integer_ranges (x : Z) (w : World) :
  (0 ≤ x < 2 ^ 64 →
   Convert (Some (TBasic BUint64, VInt x)) w = (Returns (PyLong x), w)) ∧
  (0 ≤ x < 2 ^ 63 →
   Convert (Some (TBasic BInt, VInt x)) w = (Returns (PyLong x), w)) ∧
  (- 2 ^ 63 ≤ x < 0 →
   Convert (Some (TBasic BInt, VInt x)) w = (Returns (PyLong (x + 2 ^ 64)), w)).
Proof.
  split; [|split]; intros Hx; rewrite Convert_equation_1; simpl;
    unfold gopy_build_uint64, gopy_build_int64, C_ulonglong; simpl.
  - by rewrite Z.mod_mod, Z.mod_small by lia.
  - by rewrite C_longlong_id, Z.mod_small by lia.
  - rewrite C_longlong_id by lia. do 3 f_equal.
    rewrite <- (Z.mod_add x 1 (2 ^ 64)) by lia.
    rewrite Z.mod_small; lia.
Qed.

Lemma Convert_integer_ranges_witness :
  Convert (Some (TBasic BUint64, VInt (2 ^ 64 - 1))) empty_world =
    (Returns (PyLong 18446744073709551615), empty_world) ∧
  Convert (Some (TBasic BInt, VInt (-1))) empty_world =
    (Returns (PyLong 18446744073709551615), empty_world).
Proof.
  split.
  - apply (proj1 (Convert_integer_ranges (2 ^ 64 - 1) empty_world)). lia.
  - apply (proj2 (proj2 (Convert_integer_ranges (-1) empty_world))). lia.
Defined.

(** X9. [Convert] never gives a negative Python integer, nor one of
    2^64 or more, whatever the value it is called on. *)
Theorem Convert_integer_unsigned (arg : iface) (w : World) (z : Z) :
  (Convert arg w).1 = Returns (PyLong z) → 0 ≤ z < 2 ^ 64.
Proof.
  destruct (Value_Kind (reflect_ValueOf arg)) eqn:Hk;
    try (rewrite Convert_default by (by rewrite Hk); discriminate).
  - Convert_case. by destruct (assert_bool arg) as [[]|].
  - Convert_case. destruct (assert_int arg); [|done].
    unfold gopy_build_int64. simpl. intros [= <-]. apply Z.mod_pos_bound. lia.
  - Convert_case. destruct (assert_uint64 arg); [|done].
    unfold gopy_build_uint64. simpl. intros [= <-]. apply Z.mod_pos_bound. lia.
  - Convert_case. by destruct (assert_float64 arg).
  - rewrite Convert_Interface_boxes_Value by done. discriminate.
  - destruct (assert_map_string_interface arg) as [x|] eqn:Hm.
    + destruct arg as [[t v]|]; [|done].
      destruct t as [| | |[[]| | | | | | | |] [] | | | | |]; try done.
      all: injection Hm as ->; rewrite Convert_Map_boxed; discriminate.
    + rewrite Convert_Map_invalid by done. discriminate.
  - rewrite Convert_Ptr by done. cbn zeta. cbn [fst].
    destruct (build_generic_Returns (fmt_Sprintf_T arg)
                (gopyh.Register (fmt_Sprintf_T arg) arg (handles w)).1)
      as (name & _ & ->). discriminate.
  - Convert_case. by destruct (assert_string arg).
  - rewrite Convert_Struct by done. cbn zeta. cbn [fst].
    match goal with
    | |- build_generic ?t ?y = _ → _ =>
        destruct (build_generic_Returns t y) as (name & _ & ->)
    end. discriminate.
Qed.

Lemma Convert_integer_unsigned_witness :
  (Convert (Some (TBasic BInt, VInt (-2))) empty_world).1 =
    Returns (PyLong 18446744073709551614) ∧
  0 ≤ 18446744073709551614 < 2 ^ 64.
Proof.
  assert ((Convert (Some (TBasic BInt, VInt (-2))) empty_world).1 =
          Returns (PyLong 18446744073709551614)) as H
    by (rewrite Convert_equation_1; reflexivity).
  split; [exact H|].
  exact (Convert_integer_unsigned _ empty_world _ H).
Defined.

(** ** [CmdStrToMakefile] *)

Lemma string_length_app (p r : string) :
  String.length (p +:+ r) = (String.length p + String.length r)%nat.
Proof. induction p as [|c p IH]; simpl; [done|]. by rewrite IH. Qed.

Lemma string_app_cons (x : ascii) (a b : string) :
  String x a +:+ b = String x (a +:+ b).
Proof. reflexivity. Qed.

Lemma string_app_nil_l (b : string) : EmptyString +:+ b = b.
Proof. reflexivity. Qed.

Lemma string_app_assoc (a b c : string) : (a +:+ b) +:+ c = a +:+ (b +:+ c).
Proof.
  induction a as [|x a IH]; [done|]. by rewrite !string_app_cons, IH.
Qed.

Lemma string_app_nil_r (a : string) : a +:+ EmptyString = a.
Proof.
  induction a as [|x a IH]; [done|]. by rewrite string_app_cons, IH.
Qed.

Lemma string_take_app (p r : string) :
  string_take (String.length p) (p +:+ r) = p.
Proof. induction p as [|c p IH]; simpl; [by destruct r|]. by rewrite IH. Qed.

Lemma string_drop_app (p r : string) :
  string_drop (String.length p) (p +:+ r) = r.
Proof. induction p as [|c p IH]; simpl; [done|]. exact IH. Qed.

Lemma string_take_all (n : nat) (s : string) :
  (String.length s ≤ n)%nat → string_take n s = s.
Proof.
  revert n. induction s as [|c s IH]; intros [|n] Hn; simpl in *; try done; try lia.
  rewrite IH; [done|lia].
Qed.

Lemma string_take_drop (n : nat) (s : string) :
  string_take n s +:+ string_drop n s = s.
Proof.
  revert n. induction s as [|c s IH]; intros [|n]; simpl; try done.
  by rewrite string_app_cons, IH.
Qed.

Lemma has_prefix_length (s sub : string) :
  has_prefix s sub = true → (String.length sub ≤ String.length s)%nat.
Proof.
  revert s. induction sub as [|a sub IH]; intros [|b s]; simpl; try done; try lia.
  destruct (Ascii.eqb a b); [|done]. intros H%IH. lia.
Qed.

(** An occurrence that [strings.Index] finds lies inside the string. *)
Lemma index_of_bound (s sub : string) (n : nat) :
  index_of s sub = Some n → (n + String.length sub ≤ String.length s)%nat.
Proof.
  revert n. induction s as [|c s IH]; intros n.
  - destruct sub; simpl; [|done]. intros [= <-]. simpl. lia.
  - cbn [index_of]. destruct (has_prefix (String c s) sub) eqn:Hp.
    + intros [= <-]. by apply has_prefix_length in Hp.
    + destruct (index_of s sub) as [m|]; [|done]. simpl. intros [= <-].
      specialize (IH m eq_refl). lia.
Qed.

Lemma strings_Index_bound (s sub : string) :
  -1 ≤ strings_Index s sub ∧
  strings_Index s sub + Z.of_nat (String.length sub) ≤
    Z.max (Z.of_nat (String.length s)) (Z.of_nat (String.length sub) - 1).
Proof.
  unfold strings_Index. destruct (index_of s sub) as [n|] eqn:Hn; [|lia].
  apply index_of_bound in Hn. lia.
Qed.

(** The first occurrence of a byte behind a text without it. *)
Lemma has_prefix_nil (s : string) : has_prefix s EmptyString = true.
Proof. by destruct s. Qed.

Lemma index_of_byte (a r : string) (c : ascii) :
  without_byte c a →
  index_of (a +:+ String c r) (String c EmptyString) = Some (String.length a).
Proof.
  induction a as [|x a IH].
  - intros _. rewrite string_app_nil_l. cbn [index_of has_prefix].
    by rewrite Ascii.eqb_refl, has_prefix_nil.
  - intros [Hx Ha]. rewrite string_app_cons. cbn [index_of has_prefix].
    assert (Ascii.eqb c x = false) as -> by (apply Ascii.eqb_neq; congruence).
    by rewrite IH.
Qed.

Lemma string_take_length (n : nat) (s : string) :
  (String.length (string_take n s) ≤ n)%nat.
Proof.
  revert s. induction n as [|n IH]; intros [|c s]; simpl; try lia.
  specialize (IH s). lia.
Qed.

Lemma string_slice_Some (s : string) (lo hi : Z) :
  0 ≤ lo → lo ≤ hi → hi ≤ Z.of_nat (String.length s) →
  ∃ t, string_slice s lo hi = Some t ∧ Z.of_nat (String.length t) ≤ hi - lo.
Proof.
  intros H1 H2 H3. unfold string_slice. rewrite decide_True by done.
  eexists. split; [reflexivity|].
  pose proof (string_take_length (Z.to_nat (hi - lo))
                (string_drop (Z.to_nat lo) s)). lia.
Qed.

(** The slices of the cut are always in range. *)
Lemma CmdStrToMakefile_cut_total (cmdstr : string) :
  is_Some (CmdStrToMakefile_cut cmdstr).
Proof.
  unfold CmdStrToMakefile_cut.
  pose proof (strings_Index_bound cmdstr "-output=") as [_ Ho]. simpl in Ho.
  destruct (decide (strings_Index cmdstr "-output=" > 0)) as [Hpos|]; [|by eexists].
  destruct (string_slice_Some cmdstr (strings_Index cmdstr "-output=")
              (Z.of_nat (String.length cmdstr))) as (tail & -> & Htail); [lia..|].
  cbn [mbind option_bind].
  pose proof (strings_Index_bound tail " ") as [Hs1 Hs2]. simpl in Hs2.
  destruct (string_slice_Some cmdstr 0 (strings_Index cmdstr "-output="))
    as (before & -> & _); [lia..|].
  cbn [mbind option_bind].
  destruct (string_slice_Some cmdstr
              (strings_Index cmdstr "-output=" + strings_Index tail " " + 1)
              (Z.of_nat (String.length cmdstr))) as (after & -> & _); [lia..|].
  by eexists.
Qed.

Lemma string_drop_length (n : nat) (s : string) :
  String.length (string_drop n s) = (String.length s - n)%nat.
Proof.
  revert s. induction n as [|n IH]; intros [|c s]; simpl; try lia. apply IH.
Qed.

Lemma string_slice_from (s : string) (n : nat) :
  (n ≤ String.length s)%nat →
  string_slice s (Z.of_nat n) (Z.of_nat (String.length s)) = Some (string_drop n s).
Proof.
  intros Hn. unfold string_slice. rewrite decide_True by lia.
  rewrite Nat2Z.id. rewrite string_take_all; [done|].
  rewrite string_drop_length. lia.
Qed.

Lemma string_slice_to (s : string) (n : nat) :
  (n ≤ String.length s)%nat →
  string_slice s 0 (Z.of_nat n) = Some (string_take n s).
Proof.
  intros Hn. unfold string_slice. rewrite decide_True by lia.
  by rewrite Z.sub_0_r, Nat2Z.id.
Qed.

Lemma index_of_byte_None (t : string) (c : ascii) :
  without_byte c t → index_of t (String c EmptyString) = None.
Proof.
  induction t as [|x t IH]; [done|]. intros [Hx Ht].
  cbn [index_of has_prefix].
  assert (Ascii.eqb c x = false) as -> by (apply Ascii.eqb_neq; congruence).
  by rewrite IH.
Qed.

Lemma without_byte_app (c : ascii) (a b : string) :
  without_byte c a → without_byte c b → without_byte c (a +:+ b).
Proof.
  induction a as [|x a IH]; [done|]. intros [Hx Ha] Hb.
  rewrite string_app_cons. split; [done|]. by apply IH.
Qed.

(** ** The fields of a command line *)

Lemma fields_from_fields (s : string) :
  no_space (fields_from s).1 ∧ Forall is_field (fields_from s).2.
Proof.
  induction s as [|c s [IH1 IH2]]; simpl; [by split|].
  destruct (fields_from s) as [cur rest]. simpl in *.
  destruct (asciiSpace c) eqn:Hc; simpl; [|by split].
  split; [done|]. destruct cur; simpl; [done|].
  apply Forall_cons_2; [|done]. by split.
Qed.

Lemma strings_Fields_fields (s : string) : Forall is_field (strings_Fields s).
Proof.
  unfold strings_Fields. pose proof (fields_from_fields s) as [H1 H2].
  destruct (fields_from s) as [cur rest]. simpl in *.
  destruct cur; simpl; [done|]. apply Forall_cons_2; [|done]. by split.
Qed.

Lemma fields_from_app (x r : string) :
  no_space x →
  fields_from (x +:+ r) = (x +:+ (fields_from r).1, (fields_from r).2).
Proof.
  induction x as [|c x IH].
  - intros _. rewrite !string_app_nil_l. by destruct (fields_from r).
  - intros [Hc Hx]. rewrite !string_app_cons. cbn [fields_from].
    rewrite IH by done. by rewrite Hc.
Qed.

Lemma strings_Fields_field (x : string) : is_field x → strings_Fields x = [x].
Proof.
  intros [Hne Hx]. unfold strings_Fields.
  rewrite <- (string_app_nil_r x) at 1. rewrite fields_from_app by done.
  simpl. rewrite string_app_nil_r. by destruct x.
Qed.

Lemma strings_Fields_cons (x r : string) :
  is_field x →
  strings_Fields (x +:+ " " +:+ r) = x :: strings_Fields r.
Proof.
  intros [Hne Hx]. unfold strings_Fields.
  rewrite fields_from_app by done. rewrite string_app_cons, string_app_nil_l.
  cbn [fields_from]. destruct (fields_from r) as [cur rest].
  change (asciiSpace " ") with true. cbn [fst snd].
  rewrite string_app_nil_r. by destruct x.
Qed.

(** Joining fields with one space and splitting again gives the fields
    back. *)
Lemma strings_Fields_Join (l : list string) :
  Forall is_field l → strings_Fields (strings_Join l " ") = l.
Proof.
  unfold strings_Join, join. induction 1 as [|x l Hx Hl IH]; [done|].
  destruct l as [|y l].
  - simpl. by apply strings_Fields_field.
  - change (String.concat " " (x :: y :: l))
      with (x +:+ " " +:+ String.concat " " (y :: l)).
    rewrite strings_Fields_cons by done. by rewrite IH.
Qed.

(** X10. On a command line of ASCII bytes [CmdStrToMakefile] never fails
    in the slices that cut the [-output=] option. With [c0], [c1] and
    [rest] the fields of the line after the cut, the result is
    [c0 c1 -no-make rest...], joined by single spaces, and its fields are
    exactly those; when fewer than two fields are left (an empty line, a
    lone word), [cmds[:2]] panics. *)
Theorem CmdStrToMakefile_result (cmdstr : string) :
  ascii_only cmdstr →
  ∃ s',
    CmdStrToMakefile_cut cmdstr = Some s' ∧
    match strings_Fields s' with
    | c0 :: c1 :: rest =>
        CmdStrToMakefile cmdstr =
          Done (strings_Join (c0 :: c1 :: "-no-make" :: rest) " ") ∧
        strings_Fields (strings_Join (c0 :: c1 :: "-no-make" :: rest) " ") =
          c0 :: c1 :: "-no-make" :: rest
    | _ => ∃ msg, CmdStrToMakefile cmdstr = Panicked msg
    end.
Proof.
  intros _. destruct (CmdStrToMakefile_cut_total cmdstr) as [s' Hs'].
  exists s'. split; [done|]. unfold CmdStrToMakefile. rewrite Hs'.
  unfold CmdStrToMakefile_join.
  pose proof (strings_Fields_fields s') as Hf.
  destruct (strings_Fields s') as [|c0 [|c1 rest]].
  - by eexists.
  - by eexists.
  - split; [reflexivity|]. apply strings_Fields_Join.
    apply Forall_cons in Hf as [H0 Hf]. apply Forall_cons in Hf as [H1 Hf].
    apply Forall_cons_2; [done|]. apply Forall_cons_2; [done|].
    apply Forall_cons_2; [|done].
    split; [done|]. simpl. by repeat split.
Qed.

Lemma CmdStrToMakefile_result_witness :
  CmdStrToMakefile "gopy  build	-vm=python3  pkg " =
    Done "gopy build -no-make -vm=python3 pkg" ∧
  (∃ msg, CmdStrToMakefile "gopy" = Panicked msg) ∧
  (∃ msg, CmdStrToMakefile "gopy -output=out " = Panicked msg).
Proof.
  split; [|split].
  - destruct (CmdStrToMakefile_result "gopy  build	-vm=python3  pkg ")
      as (s' & Hs' & H); [repeat (split; [vm_compute; lia|]); exact I|].
    injection Hs' as <-. exact (proj1 H).
  - destruct (CmdStrToMakefile_result "gopy") as (s' & Hs' & H);
      [repeat (split; [vm_compute; lia|]); exact I|].
    injection Hs' as <-. exact H.
  - destruct (CmdStrToMakefile_result "gopy -output=out ") as (s' & Hs' & H);
      [repeat (split; [vm_compute; lia|]); exact I|].
    injection Hs' as <-. exact H.
Defined.

(** X11. An [-output=] option that is not at the very start of the line
    and is followed by a space is cut out, with that space: the result is
    the one for the line without it. [pre] is the text before the first
    occurrence of "-output=", [val] the value of the option. *)
Theorem CmdStrToMakefile_cuts_output (pre val post : string) :
  let cmdstr := pre +:+ "-output=" +:+ val +:+ " " +:+ post in
  strings_Index cmdstr "-output=" = Z.of_nat (String.length pre) →
  pre ≠ EmptyString →
  without_byte " " val →
  CmdStrToMakefile_cut cmdstr = Some (pre +:+ post) ∧
  CmdStrToMakefile cmdstr = CmdStrToMakefile_join (pre +:+ post).
Proof.
  intros cmdstr Hidx Hpre Hval.
  set (opt := "-output=" +:+ val).
  assert (cmdstr = pre +:+ (opt +:+ String " " post)) as Hs1.
  { unfold cmdstr, opt. by rewrite !string_app_assoc. }
  assert (cmdstr = (pre +:+ opt +:+ " ") +:+ post) as Hs2.
  { unfold cmdstr, opt. by rewrite !string_app_assoc. }
  clearbody cmdstr.
  assert (CmdStrToMakefile_cut cmdstr = Some (pre +:+ post)) as Hcut.
  { unfold CmdStrToMakefile_cut. rewrite Hidx.
    assert (0 < String.length pre)%nat as Hlen by (destruct pre; simpl; [done|lia]).
    rewrite decide_True by lia.
    assert (String.length pre ≤ String.length cmdstr)%nat as Hle
      by (rewrite Hs1, string_length_app; lia).
    rewrite string_slice_from by done. cbn [mbind option_bind].
    rewrite string_slice_to by done. cbn [mbind option_bind].
    assert (string_drop (String.length pre) cmdstr = opt +:+ String " " post)
      as -> by (rewrite Hs1; apply string_drop_app).
    assert (string_take (String.length pre) cmdstr = pre)
      as -> by (rewrite Hs1; apply string_take_app).
    assert (strings_Index (opt +:+ String " " post) " " =
            Z.of_nat (String.length opt)) as ->.
    { unfold strings_Index. rewrite index_of_byte; [done|].
      unfold opt. apply without_byte_app; [|done]. simpl.
      by repeat (split; [discriminate|]). }
    replace (Z.of_nat (String.length pre) + Z.of_nat (String.length opt) + 1)
      with (Z.of_nat (String.length (pre +:+ opt +:+ " ")))
      by (rewrite !string_length_app; simpl; lia).
    rewrite string_slice_from
      by (rewrite Hs2, (string_length_app _ post); lia).
    cbn [mbind option_bind].
    assert (string_drop (String.length (pre +:+ opt +:+ " ")) cmdstr = post)
      as -> by (rewrite Hs2; apply string_drop_app).
    done. }
  split; [done|]. unfold CmdStrToMakefile. by rewrite Hcut.
Qed.

Lemma CmdStrToMakefile_cuts_output_witness :
  CmdStrToMakefile "gopy build -output=out -vm=python3 pkg" =
    Done "gopy build -no-make -vm=python3 pkg".
Proof.
  etrans.
  - exact (proj2 (CmdStrToMakefile_cuts_output "gopy build " "out"
                    "-vm=python3 pkg" eq_refl ltac:(discriminate)
                    ltac:(simpl; repeat split; discriminate))).
  - reflexivity.
Defined.

(** X12. The option is kept, not cut, in two places: when the line starts
    with it (its index is 0), and when it is the last word, with no space
    behind its value. *)
Theorem CmdStrToMakefile_keeps_output (cmdstr : string) :
  (strings_Index cmdstr "-output=" = 0 →
   CmdStrToMakefile cmdstr = CmdStrToMakefile_join cmdstr) ∧
  (∀ pre val,
     cmdstr = pre +:+ "-output=" +:+ val →
     strings_Index cmdstr "-output=" = Z.of_nat (String.length pre) →
     without_byte " " val →
     CmdStrToMakefile cmdstr = CmdStrToMakefile_join cmdstr).
Proof.
  split.
  - intros Hidx. unfold CmdStrToMakefile, CmdStrToMakefile_cut.
    rewrite Hidx. by rewrite decide_False by lia.
  - intros pre val Hs Hidx Hval.
    assert (CmdStrToMakefile_cut cmdstr = Some cmdstr) as Hcut.
    { unfold CmdStrToMakefile_cut. rewrite Hidx.
      destruct (decide (Z.of_nat (String.length pre) > 0)) as [Hpos|]; [|done].
      assert (String.length pre ≤ String.length cmdstr)%nat as Hle
        by (rewrite Hs, string_length_app; lia).
      rewrite string_slice_from by done. cbn [mbind option_bind].
      rewrite string_slice_to by done. cbn [mbind option_bind].
      assert (string_drop (String.length pre) cmdstr = "-output=" +:+ val)
        as Hdrop by (rewrite Hs; apply string_drop_app).
      rewrite Hdrop.
      assert (strings_Index ("-output=" +:+ val) " " = -1) as ->.
      { unfold strings_Index. rewrite index_of_byte_None; [done|].
        apply without_byte_app; [|done]. simpl.
        by repeat (split; [discriminate|]). }
      replace (Z.of_nat (String.length pre) + -1 + 1)
        with (Z.of_nat (String.length pre)) by lia.
      rewrite string_slice_from by done. cbn [mbind option_bind].
      by rewrite string_take_drop. }
    unfold CmdStrToMakefile. by rewrite Hcut.
Qed.

Lemma CmdStrToMakefile_keeps_output_witness :
  CmdStrToMakefile "-output=out gopy build" = Done "-output=out gopy -no-make build" ∧
  CmdStrToMakefile "gopy build -output=out" = Done "gopy build -no-make -output=out".
Proof.
  split.
  - etrans.
    + exact (proj1 (CmdStrToMakefile_keeps_output "-output=out gopy build") eq_refl).
    + reflexivity.
  - etrans.
    + exact (proj2 (CmdStrToMakefile_keeps_output "gopy build -output=out")
               "gopy build " "out" eq_refl eq_refl
               ltac:(simpl; repeat split; discriminate)).
    + reflexivity.
Defined.

(** ** Booleans across the boundary *)

(** X13. [boolPyToGo] undoes [boolGoToPy]; the other way round,
    [boolGoToPy] after [boolPyToGo] gives 0 or 1: it is the byte itself
    exactly when the byte is 0 or 1, and 1 for every other byte. *)
Theorem bool_round_trip (b : bool) (c : Z) :
  boolPyToGo (boolGoToPy b) = b ∧
  (boolGoToPy (boolPyToGo c) = c ↔ c = 0 ∨ c = 1) ∧
  (c ≠ 0 → boolGoToPy (boolPyToGo c) = 1).
Proof.
  unfold boolPyToGo, boolGoToPy. split; [by destruct b|].
  destruct (decide (c ≠ 0)) as [Hc|Hc]; split; try lia; try done.
Qed.

(** ** [New] of [maps.go] *)

Lemma map_assign_insert (m : loc) (key : string) (v : iface)
    (e : gmap string iface) (hp : gmap loc object) (r : gopyh.Registry) :
  map_assign m key v (mkWorld (<[m := OMap e]> hp) r) =
  mkWorld (<[m := OMap (<[key := v]> e)]> hp) r.
Proof.
  unfold map_assign. cbn [heap handles]. rewrite lookup_insert_eq.
  by rewrite insert_insert_eq.
Qed.

Lemma map_assign_insert_behind (m a b : loc) (key : string) (v : iface)
    (oa ob : object) (e : gmap string iface) (hp : gmap loc object)
    (r : gopyh.Registry) :
  m ≠ a → m ≠ b →
  map_assign m key v (mkWorld (<[b := ob]> (<[a := oa]> (<[m := OMap e]> hp))) r) =
  mkWorld (<[b := ob]> (<[a := oa]> (<[m := OMap (<[key := v]> e)]> hp))) r.
Proof.
  intros Ha Hb. unfold map_assign. cbn [heap handles].
  rewrite !lookup_insert_ne by done. rewrite lookup_insert_eq. f_equal.
  rewrite (insert_insert_ne _ m b) by done. f_equal.
  rewrite (insert_insert_ne _ m a) by done. f_equal.
  by rewrite insert_insert_eq.
Qed.

(** X14. From any world, [New] builds its result out of three new
    objects: the map it returns, the variable [structPtr] and the inner
    map. None of them is a location of the heap before the call and they
    differ from each other; the cells that existed keep their content and
    the registry is untouched. The map returned has the eight entries of
    the source, its entry "map" refers to the inner map and its entry
    "structPtr" points to the struct with [Value] 12. *)
Theorem New_builds_fresh_objects (w : World) :
  ∃ retval structPtr inner w1,
    maps.New w = (VMapRef retval, w1) ∧
    (retval ∉ dom (heap w)) ∧ (structPtr ∉ dom (heap w)) ∧
    (inner ∉ dom (heap w)) ∧
    retval ≠ structPtr ∧ retval ≠ inner ∧ structPtr ≠ inner ∧
    handles w1 = handles w ∧
    (∀ a o, heap w !! a = Some o → heap w1 !! a = Some o) ∧
    heap w1 !! retval =
      Some (OMap
        (<["structPtr" := Some (TPtr ifxmap.TestStruct, VPtr structPtr)]>
        (<["map" := Some (ifxmap.map_string_interface, VMapRef inner)]>
        (<["struct" := Some (ifxmap.TestStruct, VStruct [("Value", VInt 6)])]>
        (<["bool" := Some (TBasic BBool, VBool true)]>
        (<["uint" := Some (TBasic BUint64, VInt 3)]>
        (<["int" := Some (TBasic BInt, VInt 2)]>
        (<["string" := Some (TBasic BString, VString "sample")]>
        (<["float" := Some (TBasic BFloat64, VFloat 3.14159)]> ∅))))))))) ∧
    heap w1 !! inner = Some (OMap ifxmap.inner_map) ∧
    load structPtr w1 = Some (VStruct [("Value", VInt 12)]).
Proof.
  destruct w as [hp r]. unfold maps.New, make_map, address_of.
  cbn [heap handles]. rewrite !map_assign_insert. cbn [heap handles].
  set (retval := fresh (dom hp)).
  set (e6 := <["struct" := _]> _).
  set (structPtr := fresh (dom (<[retval := OMap e6]> hp))).
  set (inner := fresh (dom (<[structPtr := _]> (<[retval := OMap e6]> hp)))).
  assert (retval ∉ dom hp) as H1 by apply is_fresh.
  assert (structPtr ∉ dom (<[retval := OMap e6]> hp)) as H2 by apply is_fresh.
  assert (inner ∉ dom (<[structPtr := OVar (VStruct [("Value", VInt 12)])]>
                         (<[retval := OMap e6]> hp))) as H3 by apply is_fresh.
  rewrite !dom_insert_L in H2, H3.
  assert (retval ≠ structPtr) as N1 by set_solver.
  assert (retval ≠ inner) as N2 by set_solver.
  assert (structPtr ≠ inner) as N3 by set_solver.
  rewrite !map_assign_insert_behind by done.
  eexists retval, structPtr, inner, _. split; [reflexivity|].
  cbn [heap handles]. unfold load. cbn [heap].
  split; [done|]. split; [set_solver|]. split; [set_solver|].
  split; [done|]. split; [done|]. split; [done|]. split; [done|].
  split; [|split; [|split]].
  - intros a o Ha.
    assert (a ∈ dom hp) as Hd by (apply elem_of_dom; by eexists).
    rewrite !lookup_insert_ne; [done|set_solver..].
  - rewrite !lookup_insert_ne by done. by rewrite lookup_insert_eq.
  - by rewrite lookup_insert_eq.
  - rewrite lookup_insert_ne by done. by rewrite lookup_insert_eq.
Qed.
